(** * mtls-server: the certificate processor (cert_processor.py)

    A shallow embedding of [CertProcessor] and of the part of its
    environment the methods touch: the configuration, the file store, the
    clock, the operating system's random source, the log, the OpenPGP
    keyring and the X.509 builder.  Cryptographic material is symbolic: a
    key is named by the entropy it was generated from, a file holds either
    a serialised key, a serialised certificate or other bytes, and a
    signature names the key that verifies it. *)

From Stdlib Require Import ZArith String Ascii List Lia.
From stdpp Require Import base option gmap strings list.

Local Open Scope string_scope.

(** ** Python strings: [str.split], [os.path] *)

Module PyStr.

(** [s.split(sep)] for a one-character separator: every occurrence cuts,
    empty pieces are kept, and the result is never empty. *)
Fixpoint split (sep : ascii) (s : string) : list string :=
  match s with
  | EmptyString => [EmptyString]
  | String c rest =>
      if Ascii.eqb c sep then EmptyString :: split sep rest
      else match split sep rest with
           | [] => [String c EmptyString]
           | piece :: pieces => String c piece :: pieces
           end
  end.

Definition startswith (s p : string) : bool := String.prefix p s.

Fixpoint endswith_char (s : string) (c : ascii) : bool :=
  match s with
  | EmptyString => false
  | String d EmptyString => Ascii.eqb d c
  | String _ rest => endswith_char rest c
  end.

(** [sep.join(pieces)] *)
Fixpoint join (sep : string) (pieces : list string) : string :=
  match pieces with
  | [] => ""
  | [p] => p
  | p :: rest => p ++ sep ++ join sep rest
  end.

End PyStr.

Module OsPath.

Definition isabs (p : string) : bool := PyStr.startswith p "/".

(** [os.path.join(a, b)] *)
Definition join (a b : string) : string :=
  if isabs b then b
  else if orb (String.eqb a "") (PyStr.endswith_char a "/"%char) then a ++ b
  else a ++ "/" ++ b.

(** The loop of [posixpath.normpath]; [acc] is [new_comps] reversed. *)
Fixpoint norm_comps (initial_slashes : bool) (comps acc : list string)
  : list string :=
  match comps with
  | [] => rev acc
  | comp :: rest =>
      if orb (String.eqb comp "") (String.eqb comp ".") then
        norm_comps initial_slashes rest acc
      else if String.eqb comp ".." then
        match acc with
        | [] => if initial_slashes then norm_comps initial_slashes rest acc
                else norm_comps initial_slashes rest [comp]
        | last :: before =>
            if String.eqb last ".." then
              norm_comps initial_slashes rest (comp :: acc)
            else norm_comps initial_slashes rest before
        end
      else norm_comps initial_slashes rest (comp :: acc)
  end.

Definition normpath (path : string) : string :=
  if String.eqb path "" then "."
  else
    let slashes :=
      if PyStr.startswith path "/" then
        if andb (PyStr.startswith path "//") (negb (PyStr.startswith path "///"))
        then "//" else "/"
      else "" in
    let comps := norm_comps (PyStr.startswith path "/")
                            (PyStr.split "/"%char path) [] in
    let joined := slashes ++ PyStr.join "/" comps in
    if String.eqb joined "" then "." else joined.

Fixpoint all_slashes (s : string) : bool :=
  match s with
  | EmptyString => true
  | String c rest => Ascii.eqb c "/"%char && all_slashes rest
  end.

(** [s.rstrip('/')] *)
Fixpoint rstrip_slashes (s : string) : string :=
  match s with
  | EmptyString => EmptyString
  | String c rest =>
      let rest' := rstrip_slashes rest in
      if Ascii.eqb c "/"%char && String.eqb rest' "" then "" else String c rest'
  end.

(** [p[:p.rfind('/') + 1]]: the text up to the last slash, slash included *)
Fixpoint upto_last_slash (s : string) : string :=
  match s with
  | EmptyString => EmptyString
  | String c rest =>
      let head := upto_last_slash rest in
      if String.eqb head "" then (if Ascii.eqb c "/"%char then "/" else "")
      else String c head
  end.

(** [os.path.dirname(p)] *)
Definition dirname (p : string) : string :=
  let head := upto_last_slash p in
  if all_slashes head then head else rstrip_slashes head.

(** [os.path.abspath(path)] in a process whose working directory is [cwd] *)
Definition abspath (cwd path : string) : string :=
  normpath (if isabs path then path else join cwd path).

End OsPath.

(** ** Exceptions and outcomes *)

Inductive exn : Type :=
  | FileNotFoundError
  | IsADirectoryError
  | NotADirectoryError
  | PermissionError
  | OverflowError
  | ValueError
  | TypeError
  | AttributeError
  | NoSectionError
  | NoOptionError
  | KeyringError (detail : string)
  | CertProcessorKeyNotFoundError
  | CertProcessorInvalidSignatureError.

(** What a call produces: a value, or a raised exception. *)
Inductive outcome (A : Type) : Type :=
  | Return (a : A)
  | Raise (e : exn).
Arguments Return {A} a.
Arguments Raise {A} e.

Definition outcome_bind {A B} (o : outcome A) (k : A → outcome B) : outcome B :=
  match o with
  | Return a => k a
  | Raise e => Raise e
  end.

(** ** Symbolic cryptographic material *)

Local Open Scope Z_scope.

(** An RSA private key; [secret] is the entropy it was generated from. *)
Record RSAPrivateKey : Type := {
  key_size : Z;
  public_exponent : Z;
  secret : Z
}.

(** The public half; [owner] names the private key it belongs to. *)
Record RSAPublicKey : Type := {
  pk_size : Z;
  pk_exponent : Z;
  owner : Z
}.

Definition public_key (k : RSAPrivateKey) : RSAPublicKey :=
  {| pk_size := key_size k; pk_exponent := public_exponent k; owner := secret k |}.

Inductive OID : Type := COMMON_NAME | OtherOID (dotted : string).

Record NameAttribute : Type := { oid : OID; value : string }.

(** [x509.Name]: the list of its attributes *)
Definition Name : Type := list NameAttribute.

Inductive GeneralName : Type :=
  | DNSName (name : string)
  | DirectoryName (name : Name).

Record KeyUsageBits : Type := {
  digital_signature : bool;
  content_commitment : bool;
  key_encipherment : bool;
  data_encipherment : bool;
  key_agreement : bool;
  key_cert_sign : bool;
  crl_sign : bool;
  encipher_only : bool;
  decipher_only : bool
}.

(** The digest [SubjectKeyIdentifier.from_public_key] computes; symbolic. *)
Inductive KeyDigest : Type := DigestOf (k : RSAPublicKey).

Inductive ExtensionType : Type :=
  | SubjectKeyIdentifier (digest : KeyDigest)
  | AuthorityKeyIdentifier (key_identifier : KeyDigest)
      (authority_cert_issuer : list GeneralName)
      (authority_cert_serial_number : Z)
  | BasicConstraints (ca : bool) (path_length : option Z)
  | KeyUsage (bits : KeyUsageBits)
  | SubjectAlternativeName (general_names : list GeneralName).

Record Extension : Type := { ext_value : ExtensionType; critical : bool }.

Inductive HashAlgorithm : Type := SHA1 | SHA256 | SHA512.

(** Times are microseconds since the Unix epoch, the resolution of
    [datetime]. *)
Definition datetime : Type := Z.

(** The microseconds in [h] hours and in [d] days *)
Definition timedelta_hours (h : Z) : Z := h * 3600000000.
Definition timedelta_days (d : Z) : Z := d * 86400000000.

(** [datetime.min], 0001-01-01T00:00:00, and [datetime.max],
    9999-12-31T23:59:59.999999 *)
Definition MINDATETIME : datetime := -62135596800000000.
Definition MAXDATETIME : datetime := 253402300799999999.

(** [t + datetime.timedelta(...)] for a duration of [us] microseconds:
    the constructor of [timedelta] raises [OverflowError] beyond
    999999999 days, and so does the addition when the sum leaves the
    years 1 to 9999. *)
Definition add_timedelta (t : datetime) (us : Z) : outcome datetime :=
  if 999999999 <? Z.abs (us / 86400000000) then Raise OverflowError
  else if (t + us <? MINDATETIME) || (MAXDATETIME <? t + us)
  then Raise OverflowError
  else Return (t + us).

(** The whole second a time falls in: X.509 holds no fraction of a
    second. *)
Definition whole_seconds (t : datetime) : datetime := t / 1000000 * 1000000.

(** A signed certificate.  [signature_key] is the public key under which
    the signature over the other fields verifies. *)
Record Certificate : Type := {
  subject : Name;
  issuer : Name;
  cert_public_key : RSAPublicKey;
  serial_number : Z;
  not_valid_before : datetime;
  not_valid_after : datetime;
  extensions : list Extension;
  signature_hash_algorithm : HashAlgorithm;
  signature_key : RSAPublicKey
}.

(** A parsed certificate signing request. *)
Record CertificateSigningRequest : Type := {
  csr_subject : Name;
  csr_public_key : RSAPublicKey
}.

(** ** Serialisation *)

Inductive Encoding : Type := PEM | DER.
Inductive PrivateFormat : Type := TraditionalOpenSSL | PKCS8.
Inductive KeySerializationEncryption : Type :=
  | NoEncryption
  | BestAvailableEncryption (password : string).

(** The bytes of a file, by what they decode to. *)
Inductive bytes : Type :=
  | KeyBytes (k : RSAPrivateKey) (enc : Encoding) (fmt : PrivateFormat)
             (alg : KeySerializationEncryption)
  | CertBytes (c : Certificate) (enc : Encoding)
  | CsrBytes (r : CertificateSigningRequest) (enc : Encoding)
  | OtherBytes (raw : string).

(** [key.private_bytes(encoding, format, encryption_algorithm)] *)
Definition private_bytes (k : RSAPrivateKey) (enc : Encoding)
    (fmt : PrivateFormat) (alg : KeySerializationEncryption) : bytes :=
  KeyBytes k enc fmt alg.

(** [cert.public_bytes(encoding)] *)
Definition public_bytes (c : Certificate) (enc : Encoding) : bytes :=
  CertBytes c enc.

(** [serialization.load_pem_private_key(data, password=None, backend)]:
    [TypeError] for an encrypted key read without a password, [ValueError]
    for anything that is not a PEM private key. *)
Definition load_pem_private_key (data : bytes) : outcome RSAPrivateKey :=
  match data with
  | KeyBytes k PEM _ NoEncryption => Return k
  | KeyBytes _ PEM _ (BestAvailableEncryption _) => Raise TypeError
  | _ => Raise ValueError
  end.

(** [x509.load_pem_x509_certificate(data, backend)] *)
Definition load_pem_x509_certificate (data : bytes) : outcome Certificate :=
  match data with
  | CertBytes c PEM => Return c
  | _ => Raise ValueError
  end.

(** [x509.load_pem_x509_csr(data, backend)] *)
Definition load_pem_x509_csr (data : bytes)
  : outcome CertificateSigningRequest :=
  match data with
  | CsrBytes r PEM => Return r
  | _ => Raise ValueError
  end.

(** ** Validating constructors of the [cryptography] package *)

(** Text is held as its UTF-8 bytes: a character is ASCII when its top
    bit is clear. *)
Definition is_ascii (c : ascii) : bool :=
  match c with Ascii _ _ _ _ _ _ _ top => negb top end.

Fixpoint all_ascii (s : string) : bool :=
  match s with
  | EmptyString => true
  | String c rest => is_ascii c && all_ascii rest
  end.

(** [x509.NameAttribute(oid, value)]: a common name has between 1 and 64
    bytes, else [ValueError]; the source builds no other attribute. *)
Definition x509_NameAttribute (o : OID) (v : string) : outcome NameAttribute :=
  match o with
  | COMMON_NAME =>
      if (1 <=? Z.of_nat (String.length v)) && (Z.of_nat (String.length v) <=? 64)
      then Return {| oid := o; value := v |}
      else Raise ValueError
  | OtherOID _ => Return {| oid := o; value := v |}
  end.

(** [x509.DNSName(value)]: [ValueError] for a name that is not ASCII *)
Definition x509_DNSName (v : string) : outcome GeneralName :=
  if all_ascii v then Return (DNSName v) else Raise ValueError.

(** The loop that builds [alts]: the first name refused ends it. *)
Fixpoint dns_names (names : list string) : outcome (list GeneralName) :=
  match names with
  | [] => Return []
  | name :: rest =>
      outcome_bind (x509_DNSName name) (λ alt,
      outcome_bind (dns_names rest) (λ alts, Return (alt :: alts)))
  end.

(** ** The certificate builder of the [cryptography] package

    Every setter may be used once and validates its argument, raising
    [ValueError]; [sign] needs every field. *)

Record CertificateBuilder : Type := {
  b_issuer_name : option Name;
  b_subject_name : option Name;
  b_public_key : option RSAPublicKey;
  b_serial_number : option Z;
  b_not_valid_before : option datetime;
  b_not_valid_after : option datetime;
  b_extensions : list Extension
}.

Module Builder.

Definition new : CertificateBuilder :=
  {| b_issuer_name := None; b_subject_name := None; b_public_key := None;
     b_serial_number := None; b_not_valid_before := None;
     b_not_valid_after := None; b_extensions := [] |}.

(** 1950-01-01T00:00:00, the earliest date the builder accepts *)
Definition EARLIEST_UTC_TIME : datetime := -631152000000000.

(** [builder.sign(private_key, algorithm, backend)]; the certificate it
    returns holds the two dates in whole seconds. *)
Definition sign (k : RSAPrivateKey) (h : HashAlgorithm)
    (b : CertificateBuilder) : outcome Certificate :=
  match b_subject_name b, b_issuer_name b, b_public_key b,
        b_serial_number b, b_not_valid_before b, b_not_valid_after b with
  | Some s, Some i, Some pk, Some n, Some before, Some after =>
      Return {| subject := s; issuer := i; cert_public_key := pk;
                serial_number := n;
                not_valid_before := whole_seconds before;
                not_valid_after := whole_seconds after;
                extensions := b_extensions b;
                signature_hash_algorithm := h;
                signature_key := public_key k |}
  | _, _, _, _, _, _ => Raise ValueError
  end.

Definition subject_name (n : Name) (b : CertificateBuilder)
  : outcome CertificateBuilder :=
  match b_subject_name b with
  | Some _ => Raise ValueError
  | None =>
      Return {| b_issuer_name := b_issuer_name b; b_subject_name := Some n;
                b_public_key := b_public_key b;
                b_serial_number := b_serial_number b;
                b_not_valid_before := b_not_valid_before b;
                b_not_valid_after := b_not_valid_after b;
                b_extensions := b_extensions b |}
  end.

Definition issuer_name (n : Name) (b : CertificateBuilder)
  : outcome CertificateBuilder :=
  match b_issuer_name b with
  | Some _ => Raise ValueError
  | None =>
      Return {| b_issuer_name := Some n; b_subject_name := b_subject_name b;
                b_public_key := b_public_key b;
                b_serial_number := b_serial_number b;
                b_not_valid_before := b_not_valid_before b;
                b_not_valid_after := b_not_valid_after b;
                b_extensions := b_extensions b |}
  end.

Definition public_key (k : RSAPublicKey) (b : CertificateBuilder)
  : outcome CertificateBuilder :=
  match b_public_key b with
  | Some _ => Raise ValueError
  | None =>
      Return {| b_issuer_name := b_issuer_name b;
                b_subject_name := b_subject_name b;
                b_public_key := Some k;
                b_serial_number := b_serial_number b;
                b_not_valid_before := b_not_valid_before b;
                b_not_valid_after := b_not_valid_after b;
                b_extensions := b_extensions b |}
  end.

(** The serial number is positive and shorter than 160 bits. *)
Definition serial_number (n : Z) (b : CertificateBuilder)
  : outcome CertificateBuilder :=
  match b_serial_number b with
  | Some _ => Raise ValueError
  | None =>
      if n <=? 0 then Raise ValueError
      else if 160 <=? Z.log2 n + 1 then Raise ValueError
      else
      Return {| b_issuer_name := b_issuer_name b;
                b_subject_name := b_subject_name b;
                b_public_key := b_public_key b;
                b_serial_number := Some n;
                b_not_valid_before := b_not_valid_before b;
                b_not_valid_after := b_not_valid_after b;
                b_extensions := b_extensions b |}
  end.

Definition not_valid_before (t : datetime) (b : CertificateBuilder)
  : outcome CertificateBuilder :=
  match b_not_valid_before b with
  | Some _ => Raise ValueError
  | None =>
      if t <? EARLIEST_UTC_TIME then Raise ValueError
      else if match b_not_valid_after b with
              | Some after => after <? t
              | None => false
              end then Raise ValueError
      else
      Return {| b_issuer_name := b_issuer_name b;
                b_subject_name := b_subject_name b;
                b_public_key := b_public_key b;
                b_serial_number := b_serial_number b;
                b_not_valid_before := Some t;
                b_not_valid_after := b_not_valid_after b;
                b_extensions := b_extensions b |}
  end.

(** A date earlier than the one already set as [not_valid_before] is
    refused. *)
Definition not_valid_after (t : datetime) (b : CertificateBuilder)
  : outcome CertificateBuilder :=
  match b_not_valid_after b with
  | Some _ => Raise ValueError
  | None =>
      if t <? EARLIEST_UTC_TIME then Raise ValueError
      else if match b_not_valid_before b with
              | Some before => t <? before
              | None => false
              end then Raise ValueError
      else
      Return {| b_issuer_name := b_issuer_name b;
                b_subject_name := b_subject_name b;
                b_public_key := b_public_key b;
                b_serial_number := b_serial_number b;
                b_not_valid_before := b_not_valid_before b;
                b_not_valid_after := Some t;
                b_extensions := b_extensions b |}
  end.

(** Two extensions are of one kind when they carry the same OID. *)
Definition same_kind (x y : ExtensionType) : bool :=
  match x, y with
  | SubjectKeyIdentifier _, SubjectKeyIdentifier _
  | AuthorityKeyIdentifier _ _ _, AuthorityKeyIdentifier _ _ _
  | BasicConstraints _ _, BasicConstraints _ _
  | KeyUsage _, KeyUsage _
  | SubjectAlternativeName _, SubjectAlternativeName _ => true
  | _, _ => false
  end.

Definition add_extension (x : ExtensionType) (crit : bool)
    (b : CertificateBuilder) : outcome CertificateBuilder :=
  if existsb (λ e, same_kind (ext_value e) x) (b_extensions b)
  then Raise ValueError
  else
    Return {| b_issuer_name := b_issuer_name b;
              b_subject_name := b_subject_name b;
              b_public_key := b_public_key b;
              b_serial_number := b_serial_number b;
              b_not_valid_before := b_not_valid_before b;
              b_not_valid_after := b_not_valid_after b;
              b_extensions := b_extensions b ++ [{| ext_value := x; critical := crit |}] |}.

End Builder.

(** ** The OpenPGP keyring (python-gnupg) *)

(** What [gpg.decrypt] and [gpg.encrypt] return. *)
Record Crypt : Type := {
  ok : bool;
  status : string;
  fingerprint : option string;
  data : string
}.

(** What [gpg.verify_data] returns. *)
Record Verify : Type := {
  valid : bool;
  verify_status : string;
  verify_fingerprint : option string
}.

(** A call into the keyring answers or throws an exception of its own;
    the keyring knows nothing of the processor's exception classes. *)
Inductive keyring_call (A : Type) : Type :=
  | Answers (a : A)
  | Throws (detail : string).
Arguments Answers {A} a.
Arguments Throws {A} detail.

Record GPG : Type := {
  gpg_encrypt : string → list string → bool → keyring_call Crypt;
  gpg_decrypt : string → keyring_call Crypt;
  gpg_verify_data : string → string → keyring_call Verify
}.

(** ** The world a method runs in *)

Inductive Node : Type :=
  | RegularFile (content : bytes) (readable writable : bool)
  | Directory (writable : bool).

(** What [logging.error] was given. *)
Inductive LogRecord : Type :=
  | LogText (msg : string)
  | LogExn (e : exn)
  | LogVerify (v : Verify).

(** [clock] lists the successive readings of [utcnow] and [entropy] the
    successive draws from [os.urandom]; [ticks] and [draws] count the
    readings made so far. *)
Record World : Type := {
  fs : gmap string Node;
  cwd : string;
  clock : nat → datetime;
  ticks : nat;
  entropy : nat → Z;
  draws : nat;
  log : list LogRecord
}.

Definition set_fs (f : gmap string Node) (w : World) : World :=
  {| fs := f; cwd := cwd w; clock := clock w; ticks := ticks w;
     entropy := entropy w; draws := draws w; log := log w |}.

Definition set_ticks (n : nat) (w : World) : World :=
  {| fs := fs w; cwd := cwd w; clock := clock w; ticks := n;
     entropy := entropy w; draws := draws w; log := log w |}.

Definition set_draws (n : nat) (w : World) : World :=
  {| fs := fs w; cwd := cwd w; clock := clock w; ticks := ticks w;
     entropy := entropy w; draws := n; log := log w |}.

Definition set_log (l : list LogRecord) (w : World) : World :=
  {| fs := fs w; cwd := cwd w; clock := clock w; ticks := ticks w;
     entropy := entropy w; draws := draws w; log := l |}.

(** A computation: it reads and changes the world and returns or raises.
    An exception keeps the changes made before it. *)
Definition Py (A : Type) : Type := World → outcome A * World.

Definition ret {A} (a : A) : Py A := λ w, (Return a, w).

Definition raise {A} (e : exn) : Py A := λ w, (Raise e, w).

Definition bind {A B} (c : Py A) (k : A → Py B) : Py B :=
  λ w, match c w with
       | (Return a, w') => k a w'
       | (Raise e, w') => (Raise e, w')
       end.

Notation "x <- c ;; k" := (bind c (λ x, k))
  (at level 100, c at next level, right associativity).
Notation "c ;;; k" := (bind c (λ _, k))
  (at level 100, right associativity).

(** A pure call that may raise *)
Definition lift {A} (o : outcome A) : Py A := λ w, (o, w).

(** A call into the keyring *)
Definition call {A} (r : keyring_call A) : Py A :=
  match r with
  | Answers a => ret a
  | Throws detail => raise (KeyringError detail)
  end.

(** [try: body / except <catches>: handler] *)
Definition try_except {A} (body : Py A) (catches : exn → bool)
    (handler : exn → Py A) : Py A :=
  λ w, match body w with
       | (Return a, w') => (Return a, w')
       | (Raise e, w') => if catches e then handler e w' else (Raise e, w')
       end.

(** [except ValueError] *)
Definition is_ValueError (e : exn) : bool :=
  match e with ValueError => true | _ => false end.

(** [except Exception]: every exception of the model is one. *)
Definition is_Exception (e : exn) : bool := true.

(** Attribute access on a value that may be [None] *)
Definition getattr {O A} (o : option O) (field : O → A) : Py A :=
  match o with
  | Some obj => ret (field obj)
  | None => raise AttributeError
  end.

Definition logging_error (r : LogRecord) : Py unit :=
  λ w, (Return tt, set_log (log w ++ [r]) w).

Definition utcnow : Py datetime :=
  λ w, (Return (clock w (ticks w)), set_ticks (S (ticks w)) w).

(** [int.from_bytes(os.urandom(n), "big")] *)
Definition os_urandom (n : Z) : Py Z :=
  λ w, (Return (entropy w (draws w) mod 2 ^ (8 * n)), set_draws (S (draws w)) w).

Definition getcwd : Py string := λ w, (Return (cwd w), w).

(** [os.path.isfile(path)] *)
Definition isfile (path : string) : Py bool :=
  λ w, (Return match fs w !! path with
               | Some (RegularFile _ _ _) => true
               | _ => false
               end, w).

(** [with open(path, 'rb') as f: f.read()] *)
Definition open_rb (path : string) : Py bytes :=
  λ w, match fs w !! path with
       | None => (Raise FileNotFoundError, w)
       | Some (Directory _) => (Raise IsADirectoryError, w)
       | Some (RegularFile content readable _) =>
           if readable then (Return content, w) else (Raise PermissionError, w)
       end.

(** The directory a path lies in: the working directory for a bare
    file name. *)
Definition containing_dir (w : World) (path : string) : string :=
  let d := OsPath.dirname path in
  if String.eqb d "" then cwd w
  else if OsPath.all_slashes d then "/" else d.

(** [with open(path, 'wb') as f: f.write(content)]; a missing file is
    created when its directory exists and is writable. *)
Definition open_wb (path : string) (content : bytes) : Py unit :=
  λ w, match fs w !! path with
       | None =>
           match fs w !! containing_dir w path with
           | Some (Directory true) =>
               (Return tt,
                set_fs (<[path := RegularFile content true true]> (fs w)) w)
           | Some (Directory false) => (Raise PermissionError, w)
           | Some (RegularFile _ _ _) => (Raise NotADirectoryError, w)
           | None => (Raise FileNotFoundError, w)
           end
       | Some (Directory _) => (Raise IsADirectoryError, w)
       | Some (RegularFile _ readable writable) =>
           if writable
           then (Return tt,
                 set_fs (<[path := RegularFile content readable writable]> (fs w)) w)
           else (Raise PermissionError, w)
       end.

(** [rsa.generate_private_key(public_exponent, key_size, backend)]; the
    key takes its entropy from the random source in one reading. *)
Definition rsa_generate_private_key (e size : Z) : Py RSAPrivateKey :=
  if (e <? 3) || Z.even e || (size <? 512) then raise ValueError
  else
    s <- os_urandom (size / 8) ;;
    ret {| key_size := size; public_exponent := e; secret := s |}.

(** [x509.random_serial_number()]: twenty random bytes, shifted right
    once to stay below 160 bits. *)
Definition random_serial_number : Py Z :=
  r <- os_urandom 20 ;;
  ret (Z.shiftr r 1).

(** [uuid.UUID(bytes=..., version=4).int]: the variant and version bits
    are forced, the other 122 are kept. *)
Definition uuid4_int (r : Z) : Z :=
  let i := Z.land r (Z.lnot (Z.shiftl 0xc000 48)) in
  let i := Z.lor i (Z.shiftl 0x8000 48) in
  let i := Z.land i (Z.lnot (Z.shiftl 0xf000 64)) in
  Z.lor i (Z.shiftl 4 76).

(** [uuid.uuid4().int] *)
Definition uuid4 : Py Z :=
  r <- os_urandom 16 ;;
  ret (uuid4_int r).

(** ** Configuration *)

(** A [ConfigParser]: sections of options. *)
Definition get (config : gmap string (gmap string string))
    (section key : string) : outcome string :=
  match config !! section with
  | None => Raise NoSectionError
  | Some options =>
      match options !! key with
      | None => Raise NoOptionError
      | Some v => Return v
      end
  end.

(** ** class CertProcessor *)

(** [file_dir] is [os.path.dirname(__file__)]. *)
Record CertProcessor : Type := {
  gpg : GPG;
  config : gmap string (gmap string string);
  file_dir : string;
  openssl_format : PrivateFormat;
  no_encyption : KeySerializationEncryption
}.

(** The path a configuration option names: taken as it is when absolute,
    else relative to the directory of the module.  The source writes
    these lines out in [__init__], [get_ca_key] and [get_ca_cert]. *)
Definition config_path (conf : gmap string (gmap string string))
    (dir key : string) : Py string :=
  path <- lift (get conf "mtls" key) ;;
  if OsPath.isabs path then ret path
  else
    here <- getcwd ;;
    ret (OsPath.abspath here (OsPath.join dir path)).

(** [__init__]; [GPG_new] is the constructor [gnupg.GPG(gnupghome=...)]. *)
Definition init (GPG_new : string → GPG)
    (conf : gmap string (gmap string string)) (dir : string)
  : Py CertProcessor :=
  gnupg_path <- config_path conf dir "gnupg_home" ;;
  ret {| gpg := GPG_new gnupg_path; config := conf; file_dir := dir;
         openssl_format := TraditionalOpenSSL;
         no_encyption := NoEncryption |}.

Definition encrypt (self : CertProcessor) (payload : string)
    (recipients : list string) (sign : bool) : Py Crypt :=
  call (gpg_encrypt (gpg self) payload recipients sign).

(** The first component is the decryption result, [None] for no
    plaintext; the second the fingerprint. *)
Definition decrypt (self : CertProcessor) (payload : string)
  : Py (option Crypt * option string) :=
  let fingerprint0 : option string := None in
  r <- try_except
         (d <- call (gpg_decrypt (gpg self) payload) ;;
          ret (Some d, fingerprint d))
         is_Exception
         (λ e, logging_error (LogExn e) ;;; ret (None, fingerprint0)) ;;
  let '(result, fp) := r in
  is_ok <- getattr result ok ;;
  if negb is_ok then
    st <- getattr result status ;;
    logging_error (LogText st) ;;;
    ret (None, fp)
  else ret (result, fp).

(** Nothing is returned on success: the value is [None]. *)
Definition verify (self : CertProcessor) (csr signature : string) : Py unit :=
  verified <- call (gpg_verify_data (gpg self) signature csr) ;;
  if negb (valid verified) then
    logging_error (LogVerify verified) ;;;
    raise CertProcessorInvalidSignatureError
  else ret tt.

(** [csr] is the text of the request, by what its UTF-8 bytes decode to. *)
Definition get_csr (self : CertProcessor) (csr : bytes)
  : Py (option CertificateSigningRequest) :=
  try_except
    (r <- lift (load_pem_x509_csr csr) ;;
     ret (Some r))
    is_Exception
    (λ e, logging_error (LogExn e) ;;; ret None).

Definition get_ca_key (self : CertProcessor) : Py RSAPrivateKey :=
  ca_key_path <- config_path (config self) (file_dir self) "ca_key" ;;
  try_except
    (key_file <- open_rb ca_key_path ;;
     lift (load_pem_private_key key_file))
    is_ValueError
    (λ _,
       logging_error (LogText ("Erroring opening file: " ++ ca_key_path)) ;;;
       logging_error (LogText "Generating new key...") ;;;
       key <- rsa_generate_private_key 65537 4096 ;;
       let key_data :=
         private_bytes key PEM (openssl_format self) (no_encyption self) in
       open_wb ca_key_path key_data ;;;
       ret key).

(** The builder calls of [get_ca_cert], in the order of the source. *)
Definition build_ca_cert (key : RSAPrivateKey) (name : Name)
    (now : datetime) (serial : Z) : outcome Certificate :=
  let key_id := DigestOf (public_key key) in
  outcome_bind (Builder.subject_name name Builder.new) (λ b,
  outcome_bind (Builder.issuer_name name b) (λ b,
  outcome_bind (Builder.public_key (public_key key) b) (λ b,
  outcome_bind (Builder.serial_number serial b) (λ b,
  outcome_bind (Builder.not_valid_before now b) (λ b,
  outcome_bind (add_timedelta now (timedelta_days 365)) (λ expiry,
  outcome_bind (Builder.not_valid_after expiry b) (λ b,
  outcome_bind (Builder.add_extension (SubjectKeyIdentifier key_id) false b) (λ b,
  outcome_bind (Builder.add_extension
                  (AuthorityKeyIdentifier key_id [DirectoryName name] serial)
                  false b) (λ b,
  outcome_bind (Builder.add_extension (BasicConstraints true (Some 0)) true b) (λ b,
  outcome_bind (Builder.add_extension
                  (KeyUsage {| digital_signature := true;
                               content_commitment := false;
                               key_encipherment := false;
                               data_encipherment := false;
                               key_agreement := false;
                               key_cert_sign := true;
                               crl_sign := true;
                               encipher_only := false;
                               decipher_only := false |})
                  true b) (λ b,
  Builder.sign key SHA256 b))))))))))).

Definition get_ca_cert (self : CertProcessor) (key : RSAPrivateKey)
  : Py Certificate :=
  ca_cert_path <- config_path (config self) (file_dir self) "ca_cert" ;;
  found <- isfile ca_cert_path ;;
  if found then
    cert_file <- open_rb ca_cert_path ;;
    lift (load_pem_x509_certificate cert_file)
  else
    cn <- lift (get (config self) "mtls" "issuer") ;;
    attribute <- lift (x509_NameAttribute COMMON_NAME cn) ;;
    let name := [attribute] in
    now <- utcnow ;;
    serial <- random_serial_number ;;
    ca_cert <- lift (build_ca_cert key name now serial) ;;
    open_wb ca_cert_path (public_bytes ca_cert PEM) ;;;
    ret ca_cert.

(** [lifetime] is the integer [int(lifetime)] gives. *)
Definition generate_cert (self : CertProcessor)
    (csr : CertificateSigningRequest) (lifetime : Z) : Py bytes :=
  ca_pkey <- get_ca_key self ;;
  ca_cert <- get_ca_cert self ca_pkey ;;
  now <- utcnow ;;
  lifetime_delta <- lift (add_timedelta now (timedelta_hours lifetime)) ;;
  alternate_name <- lift (get (config self) "mtls" "alternate_name") ;;
  alts <- lift (dns_names (PyStr.split ","%char alternate_name)) ;;
  cert <- lift (Builder.subject_name (csr_subject csr) Builder.new) ;;
  cert <- lift (Builder.issuer_name (subject ca_cert) cert) ;;
  cert <- lift (Builder.public_key (csr_public_key csr) cert) ;;
  serial <- uuid4 ;;
  cert <- lift (Builder.serial_number serial cert) ;;
  cert <- lift (Builder.not_valid_before now cert) ;;
  cert <- lift (Builder.not_valid_after lifetime_delta cert) ;;
  cert <- (if (0 <? Z.of_nat (length alts))
           then lift (Builder.add_extension (SubjectAlternativeName alts) false cert)
           else ret cert) ;;
  cert <- lift (Builder.sign ca_pkey SHA256 cert) ;;
  ret (public_bytes cert PEM).

(** ** A deployment to evaluate the methods on *)

Module Fixture.

Definition conf (alternate_name : string) : gmap string (gmap string string) :=
  {[ "mtls" :=
       <["gnupg_home" := "/srv/mtls/gnupg"]>
       (<["ca_key" := "/srv/mtls/ca.key"]>
       (<["ca_cert" := "/srv/mtls/ca.crt"]>
       (<["issuer" := "test-ca"]>
       (<["alternate_name" := alternate_name]> ∅)))) ]}.

(** A keyring that knows one good signature and one readable message. *)
Definition keyring : GPG :=
  {| gpg_encrypt := λ payload _ _,
       Answers {| ok := true; status := "encryption ok";
                  fingerprint := None; data := payload |};
     gpg_decrypt := λ payload,
       if String.eqb payload "sealed"
       then Answers {| ok := true; status := "decryption ok";
                       fingerprint := Some "F00D"; data := "opened" |}
       else if String.eqb payload "foreign"
       then Answers {| ok := false; status := "decryption failed";
                       fingerprint := None; data := "" |}
       else Throws "gpg: cannot run";
     gpg_verify_data := λ signature payload,
       if String.eqb signature "good"
       then Answers {| valid := true; verify_status := "signature valid";
                       verify_fingerprint := Some "F00D" |}
       else if String.eqb signature "forged"
       then Answers {| valid := false; verify_status := "signature bad";
                       verify_fingerprint := None |}
       else Throws "gpg: cannot run" |}.

Definition processor (alternate_name : string) : CertProcessor :=
  {| gpg := keyring; config := conf alternate_name; file_dir := "/srv/mtls";
     openssl_format := TraditionalOpenSSL; no_encyption := NoEncryption |}.

Definition ca_key : RSAPrivateKey :=
  {| key_size := 4096; public_exponent := 65537; secret := 1234567 |}.

Definition ca_cert : Certificate :=
  {| subject := [{| oid := COMMON_NAME; value := "test-ca" |}];
     issuer := [{| oid := COMMON_NAME; value := "test-ca" |}];
     cert_public_key := public_key ca_key;
     serial_number := 99;
     not_valid_before := 1500000000000000;
     not_valid_after := 1531536000000000;
     extensions := [];
     signature_hash_algorithm := SHA256;
     signature_key := public_key ca_key |}.

Definition csr : CertificateSigningRequest :=
  {| csr_subject := [{| oid := COMMON_NAME; value := "client" |}];
     csr_public_key := {| pk_size := 2048; pk_exponent := 65537; owner := 42 |} |}.

(** A world over the file store [files]: the clock starts in 2018 and
    advances a second a reading; the [n]-th draw is [seed + n]. *)
Definition world (files : gmap string Node) (seed : Z) : World :=
  {| fs := files; cwd := "/";
     clock := λ n, 1540000000000000 + Z.of_nat n * 1000000;
     ticks := 0;
     entropy := λ n, seed + Z.of_nat n;
     draws := 0;
     log := [] |}.


(** The directory of the deployment *)
Definition directories : gmap string Node :=
  <["/srv" := Directory true]> (<["/srv/mtls" := Directory true]> ∅).

Definition key_file : Node :=
  RegularFile (KeyBytes ca_key PEM TraditionalOpenSSL NoEncryption) true true.

Definition cert_file : Node := RegularFile (CertBytes ca_cert PEM) true true.

(** Both files in place *)
Definition ready : gmap string Node :=
  <["/srv/mtls/ca.key" := key_file]>
    (<["/srv/mtls/ca.crt" := cert_file]> directories).

(** A key file that is not a key, and no certificate file *)
Definition corrupt : gmap string Node :=
  <["/srv/mtls/ca.key" := RegularFile (OtherBytes "garbage") true true]>
    directories.

(** A key file, and no certificate file *)
Definition key_only : gmap string Node :=
  <["/srv/mtls/ca.key" := key_file]> directories.

End Fixture.

(** The expected leaf certificate of [generate_cert]. *)
Definition leaf_certificate (csr : CertificateSigningRequest)
    (ca_cert : Certificate) (ca_pkey : RSAPrivateKey) (now : datetime)
    (lifetime : Z) (draw : Z) (alternate_name : string) : Certificate :=
  {| subject := csr_subject csr;
     issuer := subject ca_cert;
     cert_public_key := csr_public_key csr;
     serial_number := uuid4_int draw;
     not_valid_before := whole_seconds now;
     not_valid_after := whole_seconds (now + timedelta_hours lifetime);
     extensions :=
       [{| ext_value := SubjectAlternativeName
                          (map DNSName (PyStr.split ","%char alternate_name));
           critical := false |}];
     signature_hash_algorithm := SHA256;
     signature_key := public_key ca_pkey |}.

(** The expected certificate of a CA bootstrap in [get_ca_cert]. *)
Definition ca_certificate (key : RSAPrivateKey) (cn : string)
    (now : datetime) (serial : Z) : Certificate :=
  let name := [{| oid := COMMON_NAME; value := cn |}] in
  {| subject := name;
     issuer := name;
     cert_public_key := public_key key;
     serial_number := serial;
     not_valid_before := whole_seconds now;
     not_valid_after := whole_seconds (now + timedelta_days 365);
     extensions :=
       [{| ext_value := SubjectKeyIdentifier (DigestOf (public_key key));
           critical := false |};
        {| ext_value := AuthorityKeyIdentifier (DigestOf (public_key key))
                          [DirectoryName name] serial;
           critical := false |};
        {| ext_value := BasicConstraints true (Some 0); critical := true |};
        {| ext_value := KeyUsage {| digital_signature := true;
                                    content_commitment := false;
                                    key_encipherment := false;
                                    data_encipherment := false;
                                    key_agreement := false;
                                    key_cert_sign := true;
                                    crl_sign := true;
                                    encipher_only := false;
                                    decipher_only := false |};
           critical := true |}];
     signature_hash_algorithm := SHA256;
     signature_key := public_key key |}.

(** The world after [generate_cert] has read the clock and drawn the
    serial number. *)
Definition after_issue (w : World) : World :=
  set_draws (S (draws w)) (set_ticks (S (ticks w)) w).

(** The bits of a draw that [uuid4_int] keeps: all but 62, 63 and 76 to 79. *)
Definition uuid4_free_bits : Z :=
  Z.lnot (Z.lor (Z.shiftl 0xc000 48) (Z.shiftl 0xf000 64)).

(** Whether [uuid4_int] forces bit [n]. *)
Definition uuid4_forced_bit (n : Z) : bool :=
  (n =? 62) || (n =? 63) || (n =? 76) || (n =? 77) || (n =? 78) || (n =? 79).

(** The last sixteen-byte draw made in a world *)
Definition last_draw (w : World) : Z :=
  entropy w (Nat.pred (draws w)) mod 2 ^ 128.

(** The key [get_ca_key] generates in [w]. *)
Definition fresh_key (w : World) : RSAPrivateKey :=
  {| key_size := 4096; public_exponent := 65537;
     secret := entropy w (draws w) mod 2 ^ 4096 |}.

(** The world [get_ca_key] leaves when it replaces the file at [path]. *)
Definition regenerated (self : CertProcessor) (path : string) (w : World)
  : World :=
  set_fs (<[path := RegularFile
                      (private_bytes (fresh_key w) PEM (openssl_format self)
                                     (no_encyption self))
                      true true]> (fs w))
    (set_draws (S (draws w))
       (set_log (log w ++ [LogText ("Erroring opening file: " ++ path);
                           LogText "Generating new key..."]) w)).

Ltac py_unfold :=
  unfold bind, ret, raise, lift, call, try_except, getattr, logging_error,
    utcnow, os_urandom, getcwd, isfile, open_rb, open_wb in *.

(** * Properties *)

Example split_two :
  PyStr.split ","%char "host1.example,host2.example"
  = ["host1.example"; "host2.example"].
Proof. reflexivity. Qed.

Example split_empty : PyStr.split ","%char "" = [""].
Proof. reflexivity. Qed.

Example normpath_dots :
  OsPath.abspath "/srv" "mtls/../secrets/./ca.key" = "/srv/secrets/ca.key".
Proof. reflexivity. Qed.

Lemma split_nonempty sep s : PyStr.split sep s ≠ [].
Proof.
  destruct s as [|c rest]; simpl; [discriminate|].
  destruct (Ascii.eqb c sep); [discriminate|].
  destruct (PyStr.split sep rest); discriminate.
Qed.

(** ** The keyring methods *)

Lemma decrypt_ok self payload d w :
  gpg_decrypt (gpg self) payload = Answers d →
  ok d = true →
  decrypt self payload w = (Return (Some d, fingerprint d), w).
Proof.
  intros Hd Hok. unfold decrypt. py_unfold. rewrite Hd. simpl.
  rewrite Hok. reflexivity.
Qed.

Lemma decrypt_status_failure self payload d w :
  gpg_decrypt (gpg self) payload = Answers d →
  ok d = false →
  decrypt self payload w
  = (Return (None, fingerprint d), set_log (log w ++ [LogText (status d)]) w).
Proof.
  intros Hd Hok. unfold decrypt. py_unfold. rewrite Hd. simpl.
  rewrite Hok. reflexivity.
Qed.

(** C6, at the failing input: when the keyring's decryption throws, the
    handler logs the exception and sets the result to [None]; the test
    [data.ok is False] that follows then reads an attribute of [None], and
    [AttributeError] leaves [decrypt] instead of a null plaintext. *)
Theorem decrypt_keyring_exception_escapes self payload detail w :
  gpg_decrypt (gpg self) payload = Throws detail →
  decrypt self payload w
  = (Raise AttributeError, set_log (log w ++ [LogExn (KeyringError detail)]) w).
Proof.
  intros Hd. unfold decrypt. py_unfold. rewrite Hd. reflexivity.
Qed.

Lemma decrypt_keyring_exception_escapes_witness :
  decrypt (Fixture.processor "") "noise" (Fixture.world ∅ 0)
  = (Raise AttributeError,
     set_log [LogExn (KeyringError "gpg: cannot run")] (Fixture.world ∅ 0)).
Proof.
  apply (decrypt_keyring_exception_escapes (Fixture.processor "") "noise"
           "gpg: cannot run" (Fixture.world ∅ 0)).
  reflexivity.
Defined.

(** C2: [verify] raises [CertProcessorInvalidSignatureError] exactly when
    the keyring answers with a result that is not valid, returns [None]
    exactly when the keyring answers with a valid one, and has no other
    value to return. *)
Theorem verify_raises_iff_not_valid self csr signature w :
  verify self csr signature w
  = match gpg_verify_data (gpg self) signature csr with
    | Answers v =>
        if valid v then (Return tt, w)
        else (Raise CertProcessorInvalidSignatureError,
              set_log (log w ++ [LogVerify v]) w)
    | Throws detail => (Raise (KeyringError detail), w)
    end
  ∧ (fst (verify self csr signature w) = Raise CertProcessorInvalidSignatureError
     ↔ ∃ v, gpg_verify_data (gpg self) signature csr = Answers v ∧ valid v = false)
  ∧ (fst (verify self csr signature w) = Return tt
     ↔ ∃ v, gpg_verify_data (gpg self) signature csr = Answers v ∧ valid v = true).
Proof.
  unfold verify. py_unfold.
  destruct (gpg_verify_data (gpg self) signature csr) as [v|detail]; simpl.
  - destruct (valid v) eqn:Hv; simpl.
    + split; [reflexivity|]. split; split.
      * discriminate.
      * intros (v' & Hv' & Hf). congruence.
      * intros _. exists v. auto.
      * reflexivity.
    + split; [reflexivity|]. split; split.
      * intros _. exists v. auto.
      * reflexivity.
      * discriminate.
      * intros (v' & Hv' & Hf). congruence.
  - split; [reflexivity|]. split; split.
    + discriminate.
    + intros (v & Hv & _). discriminate.
    + discriminate.
    + intros (v & Hv & _). discriminate.
Qed.

Example verify_forged :
  fst (verify (Fixture.processor "") "csr" "forged" (Fixture.world ∅ 0))
  = Raise CertProcessorInvalidSignatureError.
Proof. reflexivity. Qed.

Example verify_good :
  verify (Fixture.processor "") "csr" "good" (Fixture.world ∅ 0)
  = (Return tt, Fixture.world ∅ 0).
Proof. reflexivity. Qed.

(** ** Paths *)

Lemma config_path_world conf dir key w o w' :
  config_path conf dir key w = (o, w') → w' = w.
Proof.
  unfold config_path. py_unfold.
  destruct (get conf "mtls" key) as [p|e]; [|congruence].
  destruct (OsPath.isabs p); congruence.
Qed.

Lemma config_path_absolute conf dir key p w :
  get conf "mtls" key = Return p →
  OsPath.isabs p = true →
  config_path conf dir key w = (Return p, w).
Proof.
  intros Hg Ha. unfold config_path. py_unfold. rewrite Hg, Ha. reflexivity.
Qed.

(** ** The CA key *)

Section CAKey.

Variable self : CertProcessor.
Variable w : World.
Variable path : string.
Hypothesis configured :
  config_path (config self) (file_dir self) "ca_key" w = (Return path, w).

Lemma get_ca_key_loads k fmt writable :
  fs w !! path
  = Some (RegularFile (KeyBytes k PEM fmt NoEncryption) true writable) →
  get_ca_key self w = (Return k, w).
Proof.
  intros Hf. unfold get_ca_key, bind at 1. rewrite configured.
  py_unfold. rewrite Hf. reflexivity.
Qed.

Lemma get_ca_key_regenerates content :
  fs w !! path = Some (RegularFile content true true) →
  load_pem_private_key content = Raise ValueError →
  get_ca_key self w = (Return (fresh_key w), regenerated self path w).
Proof.
  intros Hf Hl. unfold get_ca_key, bind at 1. rewrite configured.
  unfold rsa_generate_private_key. py_unfold. rewrite Hf. simpl. rewrite Hl.
  simpl. rewrite Hf.
  unfold regenerated, fresh_key, private_bytes, set_fs, set_draws, set_log.
  simpl.
  rewrite <- app_assoc. reflexivity.
Qed.

Lemma get_ca_key_unreadable content writable :
  fs w !! path = Some (RegularFile content false writable) →
  get_ca_key self w = (Raise PermissionError, w).
Proof.
  intros Hf. unfold get_ca_key, bind at 1. rewrite configured.
  py_unfold. rewrite Hf. reflexivity.
Qed.

Lemma get_ca_key_encrypted k fmt password writable :
  fs w !! path
  = Some (RegularFile (KeyBytes k PEM fmt (BestAvailableEncryption password))
                      true writable) →
  get_ca_key self w = (Raise TypeError, w).
Proof.
  intros Hf. unfold get_ca_key, bind at 1. rewrite configured.
  py_unfold. rewrite Hf. reflexivity.
Qed.

(** C1, at the failing input: with no file at the configured path,
    [open] raises [FileNotFoundError], which [except ValueError] does not
    catch: no key is generated, nothing is written, the error leaves
    [get_ca_key]. *)
Theorem get_ca_key_absent_file_raises :
  fs w !! path = None →
  get_ca_key self w = (Raise FileNotFoundError, w).
Proof.
  intros Hf. unfold get_ca_key, bind at 1. rewrite configured.
  py_unfold. rewrite Hf. reflexivity.
Qed.

End CAKey.

Lemma get_ca_key_absent_file_raises_witness :
  get_ca_key (Fixture.processor "") (Fixture.world ∅ 7)
  = (Raise FileNotFoundError, Fixture.world ∅ 7).
Proof.
  apply (get_ca_key_absent_file_raises (Fixture.processor "")
           (Fixture.world ∅ 7) "/srv/mtls/ca.key").
  - reflexivity.
  - reflexivity.
Defined.

Example get_ca_key_corrupt_file :
  ∃ k w',
    get_ca_key (Fixture.processor "") (Fixture.world Fixture.corrupt 7)
    = (Return k, w')
    ∧ key_size k = 4096
    ∧ fs w' !! "/srv/mtls/ca.key"
      = Some (RegularFile (KeyBytes k PEM TraditionalOpenSSL NoEncryption)
                          true true).
Proof.
  eexists _, _. split.
  - eapply (get_ca_key_regenerates (Fixture.processor "")
              (Fixture.world Fixture.corrupt 7) "/srv/mtls/ca.key");
      reflexivity.
  - split; [reflexivity|]. simpl. apply lookup_insert_eq.
Qed.

(** ** The CA certificate *)

Lemma get_ca_cert_isfile self key w path content readable writable :
  config_path (config self) (file_dir self) "ca_cert" w = (Return path, w) →
  fs w !! path = Some (RegularFile content readable writable) →
  get_ca_cert self key w
  = (if readable then load_pem_x509_certificate content
     else Raise PermissionError, w).
Proof.
  intros Hp Hf. unfold get_ca_cert, bind at 1. rewrite Hp.
  py_unfold. rewrite Hf. simpl. rewrite Hf.
  destruct readable; reflexivity.
Qed.

(** C5: with a file at the configured path, [get_ca_cert] returns what
    reading and parsing that file gives, the stored certificate when the
    file holds one, and leaves the world as it was: nothing is written, no
    certificate is built, and the key it was given is not looked at. *)
Theorem get_ca_cert_existing_file self key w path content readable writable :
  config_path (config self) (file_dir self) "ca_cert" w = (Return path, w) →
  fs w !! path = Some (RegularFile content readable writable) →
  get_ca_cert self key w
  = (if readable then load_pem_x509_certificate content
     else Raise PermissionError, w)
  ∧ (∀ c, readable = true → content = CertBytes c PEM →
          get_ca_cert self key w = (Return c, w))
  ∧ (∀ key', get_ca_cert self key' w = get_ca_cert self key w).
Proof.
  intros Hp Hf.
  assert (Heq : ∀ k, get_ca_cert self k w
                     = (if readable then load_pem_x509_certificate content
                        else Raise PermissionError, w))
    by (intros k; exact (get_ca_cert_isfile self k w path content readable
                           writable Hp Hf)).
  split; [apply Heq|]. split.
  - intros c -> ->. rewrite Heq. reflexivity.
  - intros key'. rewrite !Heq. reflexivity.
Qed.

Lemma get_ca_cert_existing_file_witness :
  get_ca_cert (Fixture.processor "") Fixture.ca_key
    (Fixture.world Fixture.ready 7)
  = (Return Fixture.ca_cert, Fixture.world Fixture.ready 7).
Proof.
  apply (get_ca_cert_existing_file (Fixture.processor "") Fixture.ca_key
           (Fixture.world Fixture.ready 7) "/srv/mtls/ca.crt"
           (CertBytes Fixture.ca_cert PEM) true true);
    reflexivity.
Defined.

(** ** UUID4 integers and random serial numbers *)

Lemma variant_mask_bits n :
  0 ≤ n → Z.testbit (Z.shiftl 0xc000 48) n = (n =? 62) || (n =? 63).
Proof.
  intros Hn.
  change (Z.shiftl 0xc000 48) with (Z.lor (2 ^ 62) (2 ^ 63)).
  rewrite Z.lor_spec, !Z.pow2_bits_eqb by lia.
  rewrite (Z.eqb_sym 62), (Z.eqb_sym 63). reflexivity.
Qed.

Lemma version_mask_bits n :
  0 ≤ n →
  Z.testbit (Z.shiftl 0xf000 64) n
  = (n =? 76) || (n =? 77) || (n =? 78) || (n =? 79).
Proof.
  intros Hn.
  change (Z.shiftl 0xf000 64)
    with (Z.lor (Z.lor (Z.lor (2 ^ 76) (2 ^ 77)) (2 ^ 78)) (2 ^ 79)).
  rewrite !Z.lor_spec, !Z.pow2_bits_eqb by lia.
  rewrite (Z.eqb_sym 76), (Z.eqb_sym 77), (Z.eqb_sym 78), (Z.eqb_sym 79).
  reflexivity.
Qed.

Lemma uuid4_free_bits_spec n :
  0 ≤ n → Z.testbit uuid4_free_bits n = negb (uuid4_forced_bit n).
Proof.
  intros Hn. unfold uuid4_free_bits, uuid4_forced_bit.
  rewrite Z.lnot_spec, Z.lor_spec, variant_mask_bits, version_mask_bits by lia.
  rewrite !orb_assoc. reflexivity.
Qed.

Lemma uuid4_int_testbit r n :
  0 ≤ n →
  Z.testbit (uuid4_int r) n
  = if uuid4_forced_bit n then (n =? 63) || (n =? 78) else Z.testbit r n.
Proof.
  intros Hn. unfold uuid4_int, uuid4_forced_bit.
  change (Z.shiftl 0x8000 48) with (2 ^ 63).
  change (Z.shiftl 4 76) with (2 ^ 78).
  rewrite Z.lor_spec, Z.land_spec, Z.lor_spec, Z.land_spec.
  rewrite !Z.lnot_spec, variant_mask_bits, version_mask_bits by lia.
  rewrite !Z.pow2_bits_eqb by lia.
  rewrite (Z.eqb_sym 63), (Z.eqb_sym 78).
  destruct (n =? 62) eqn:E62, (n =? 63) eqn:E63, (n =? 76) eqn:E76,
    (n =? 77) eqn:E77, (n =? 78) eqn:E78, (n =? 79) eqn:E79;
    simpl; rewrite ?andb_true_r, ?andb_false_r, ?orb_false_r, ?orb_true_r;
    try reflexivity; lia.
Qed.

Lemma uuid4_int_nonneg r : 0 ≤ r → 0 ≤ uuid4_int r.
Proof.
  intros Hr. unfold uuid4_int.
  apply Z.lor_nonneg. split; [|apply Z.shiftl_nonneg; lia].
  apply Z.land_nonneg. left.
  apply Z.lor_nonneg. split; [|apply Z.shiftl_nonneg; lia].
  apply Z.land_nonneg. left. exact Hr.
Qed.

Lemma below_pow2_of_bits x k :
  0 ≤ x → 0 ≤ k → (∀ n, k ≤ n → Z.testbit x n = false) → x < 2 ^ k.
Proof.
  intros Hx Hk Hbits.
  assert (E : x = x mod 2 ^ k).
  { apply Z.bits_inj'. intros n Hn.
    destruct (Z.lt_ge_cases n k) as [Hlt|Hge].
    - rewrite Z.mod_pow2_bits_low by lia. reflexivity.
    - rewrite Z.mod_pow2_bits_high by lia. apply Hbits. exact Hge. }
  rewrite E. apply Z.mod_pos_bound. apply Z.pow_pos_nonneg; lia.
Qed.

Lemma uuid4_int_range r :
  0 ≤ r < 2 ^ 128 → 0 < uuid4_int r < 2 ^ 128.
Proof.
  intros [Hr0 Hr1]. split.
  - assert (H0 := uuid4_int_nonneg r Hr0).
    assert (Hb : Z.testbit (uuid4_int r) 78 = true).
    { rewrite uuid4_int_testbit by lia. reflexivity. }
    destruct (Z.eq_dec (uuid4_int r) 0) as [E|E]; [|lia].
    rewrite E, Z.bits_0 in Hb. discriminate.
  - apply below_pow2_of_bits; [apply uuid4_int_nonneg; lia | lia |].
    intros n Hn. rewrite uuid4_int_testbit by lia.
    assert (Hf : uuid4_forced_bit n = false).
    { unfold uuid4_forced_bit.
      repeat (apply orb_false_intro); apply Z.eqb_neq; lia. }
    rewrite Hf.
    destruct (Z.eq_dec r 0) as [->|Hne]; [apply Z.bits_0|].
    apply Z.bits_above_log2; [lia|].
    assert (Z.log2 r < 128) by (apply Z.log2_lt_pow2; lia). lia.
Qed.

Lemma uuid4_int_eq_iff r1 r2 :
  uuid4_int r1 = uuid4_int r2
  ↔ Z.land r1 uuid4_free_bits = Z.land r2 uuid4_free_bits.
Proof.
  split; intros H; apply Z.bits_inj'; intros n Hn.
  - rewrite !Z.land_spec, uuid4_free_bits_spec by lia.
    assert (Hb := f_equal (fun x => Z.testbit x n) H). simpl in Hb.
    rewrite !uuid4_int_testbit in Hb by lia.
    destruct (uuid4_forced_bit n); simpl.
    + rewrite !andb_false_r. reflexivity.
    + rewrite !andb_true_r. exact Hb.
  - rewrite !uuid4_int_testbit by lia.
    assert (Hb := f_equal (fun x => Z.testbit x n) H). simpl in Hb.
    rewrite !Z.land_spec, uuid4_free_bits_spec in Hb by lia.
    destruct (uuid4_forced_bit n); simpl in *.
    + reflexivity.
    + rewrite !andb_true_r in Hb. exact Hb.
Qed.

Lemma uuid4_int_serial_accepted r :
  0 ≤ r < 2 ^ 128 →
  (uuid4_int r <=? 0) = false ∧ (160 <=? Z.log2 (uuid4_int r) + 1) = false.
Proof.
  intros Hr. destruct (uuid4_int_range r Hr) as [H0 H1]. split.
  - apply Z.leb_gt. exact H0.
  - apply Z.leb_gt.
    assert (Z.log2 (uuid4_int r) < 128) by (apply Z.log2_lt_pow2; lia). lia.
Qed.

Lemma random_serial_accepted d :
  0 < Z.shiftr (d mod 2 ^ 160) 1 →
  (160 <=? Z.log2 (Z.shiftr (d mod 2 ^ 160) 1) + 1) = false.
Proof.
  intros Hpos. apply Z.leb_gt.
  assert (Hd : 0 ≤ d mod 2 ^ 160 < 2 ^ 160) by (apply Z.mod_pos_bound; lia).
  assert (Hs : Z.shiftr (d mod 2 ^ 160) 1 < 2 ^ 159).
  { rewrite Z.shiftr_div_pow2 by lia. change (2 ^ 1) with 2.
    apply Z.div_lt_upper_bound; [lia|]. change (2 * 2 ^ 159) with (2 ^ 160). lia. }
  assert (Z.log2 (Z.shiftr (d mod 2 ^ 160) 1) < 159)
    by (apply Z.log2_lt_pow2; lia).
  lia.
Qed.

(** ** Dates *)

Lemma add_timedelta_value t us x :
  add_timedelta t us = Return x →
  x = t + us ∧ MINDATETIME ≤ t + us ≤ MAXDATETIME.
Proof.
  unfold add_timedelta.
  destruct (999999999 <? Z.abs (us / 86400000000)); [discriminate|].
  destruct (t + us <? MINDATETIME) eqn:Hlo; [discriminate|].
  destruct (MAXDATETIME <? t + us) eqn:Hhi; [discriminate|].
  simpl. intros [= <-]. apply Z.ltb_ge in Hlo. apply Z.ltb_ge in Hhi. lia.
Qed.

Lemma add_timedelta_raises t us e :
  add_timedelta t us = Raise e → e = OverflowError.
Proof.
  unfold add_timedelta.
  destruct (999999999 <? Z.abs (us / 86400000000)); [congruence|].
  destruct ((t + us <? MINDATETIME) || (MAXDATETIME <? t + us));
    [congruence | discriminate].
Qed.

Lemma add_timedelta_in_range t us :
  MINDATETIME ≤ t ≤ MAXDATETIME →
  MINDATETIME ≤ t + us ≤ MAXDATETIME →
  add_timedelta t us = Return (t + us).
Proof.
  unfold add_timedelta, MINDATETIME, MAXDATETIME. intros Ht Hs.
  assert (Hd : -999999999 ≤ us / 86400000000 ≤ 999999999).
  { split.
    - apply Z.div_le_lower_bound; lia.
    - assert (us / 86400000000 < 1000000000)
        by (apply Z.div_lt_upper_bound; lia).
      lia. }
  replace (999999999 <? Z.abs (us / 86400000000)) with false
    by (symmetry; apply Z.ltb_ge; lia).
  replace (t + us <? -62135596800000000) with false
    by (symmetry; apply Z.ltb_ge; lia).
  replace (253402300799999999 <? t + us) with false
    by (symmetry; apply Z.ltb_ge; lia).
  reflexivity.
Qed.

Lemma add_timedelta_out_of_range t us :
  ¬ (MINDATETIME ≤ t + us ≤ MAXDATETIME) →
  add_timedelta t us = Raise OverflowError.
Proof.
  intros Hout. destruct (add_timedelta t us) as [x|e] eqn:E.
  - destruct (add_timedelta_value _ _ _ E) as [_ Hin]. contradiction.
  - rewrite (add_timedelta_raises _ _ _ E). reflexivity.
Qed.

Lemma whole_seconds_le t : whole_seconds t ≤ t < whole_seconds t + 1000000.
Proof.
  unfold whole_seconds.
  pose proof (Z.div_mod t 1000000 ltac:(lia)) as Hdm.
  pose proof (Z.mod_pos_bound t 1000000 ltac:(lia)) as Hm. lia.
Qed.


Lemma whole_seconds_add_days t d :
  whole_seconds (t + timedelta_days d) = whole_seconds t + timedelta_days d.
Proof.
  unfold whole_seconds, timedelta_days.
  replace (t + d * 86400000000) with (t + (d * 86400) * 1000000) by lia.
  rewrite Z.div_add by lia. lia.
Qed.

(** ** Issuing *)

Lemma dns_names_eq names :
  dns_names names
  = if forallb all_ascii names then Return (map DNSName names)
    else Raise ValueError.
Proof.
  induction names as [|name rest IH]; [reflexivity|]. simpl.
  unfold x509_DNSName. destruct (all_ascii name); [|reflexivity]. simpl.
  rewrite IH. destruct (forallb all_ascii rest); reflexivity.
Qed.

Lemma alts_nonempty alternate_name :
  (0 <? Z.of_nat (length (map DNSName (PyStr.split ","%char alternate_name))))
  = true.
Proof.
  apply Z.ltb_lt. rewrite length_map.
  pose proof (split_nonempty ","%char alternate_name) as Hne.
  destruct (PyStr.split ","%char alternate_name); [congruence | simpl; lia].
Qed.

(** Once the CA key and certificate are at hand, [generate_cert] reads the
    clock and adds the lifetime, which may overflow; reads the alternate
    names, which may be missing or refused; draws the serial number; and
    either issues the leaf or is stopped by the builder's checks on the
    validity window. *)
Lemma generate_cert_stages self csr h w k w1 cac w2 :
  get_ca_key self w = (Return k, w1) →
  get_ca_cert self k w1 = (Return cac, w2) →
  generate_cert self csr h w
  = match add_timedelta (clock w2 (ticks w2)) (timedelta_hours h) with
    | Raise e => (Raise e, set_ticks (S (ticks w2)) w2)
    | Return _ =>
        match get (config self) "mtls" "alternate_name" with
        | Raise e => (Raise e, set_ticks (S (ticks w2)) w2)
        | Return an =>
            if forallb all_ascii (PyStr.split ","%char an) then
              (if (clock w2 (ticks w2) <? Builder.EARLIEST_UTC_TIME)
                  || (h <? 0)
               then Raise ValueError
               else Return (public_bytes
                              (leaf_certificate csr cac k (clock w2 (ticks w2))
                                 h (entropy w2 (draws w2) mod 2 ^ 128) an)
                              PEM),
               after_issue w2)
            else (Raise ValueError, set_ticks (S (ticks w2)) w2)
        end
    end.
Proof.
  intros Hk Hc. unfold generate_cert, uuid4.
  unfold bind at 1. rewrite Hk. unfold bind at 1. rewrite Hc.
  py_unfold.
  cbn -[Z.mul Z.add Z.pow Z.modulo Z.ltb Z.leb uuid4_int Z.log2 PyStr.split
        add_timedelta dns_names whole_seconds].
  set (now := clock w2 (ticks w2)).
  destruct (add_timedelta now (timedelta_hours h)) as [expiry|e] eqn:Hadd;
    [|reflexivity].
  destruct (add_timedelta_value _ _ _ Hadd) as [-> [Hlo Hhi]].
  destruct (get (config self) "mtls" "alternate_name") as [an|e];
    [|reflexivity].
  rewrite dns_names_eq.
  destruct (forallb all_ascii (PyStr.split ","%char an)); [|reflexivity].
  cbn -[Z.mul Z.add Z.pow Z.modulo Z.ltb Z.leb uuid4_int Z.log2 PyStr.split
        whole_seconds].
  change (8 * 16) with 128.
  set (r := entropy w2 (draws w2) mod 2 ^ 128).
  assert (Hr : 0 ≤ r < 2 ^ 128) by (apply Z.mod_pos_bound; lia).
  destruct (uuid4_int_serial_accepted r Hr) as [Hs1 Hs2].
  rewrite Hs1, Hs2. unfold Builder.not_valid_before.
  cbn [b_not_valid_before b_not_valid_after].
  destruct (now <? Builder.EARLIEST_UTC_TIME) eqn:Hearly; [reflexivity|].
  unfold Builder.not_valid_after.
  cbn [b_not_valid_before b_not_valid_after orb].
  apply Z.ltb_ge in Hearly.
  destruct (h <? 0) eqn:Hneg.
  - apply Z.ltb_lt in Hneg.
    destruct (now + timedelta_hours h <? Builder.EARLIEST_UTC_TIME);
      [reflexivity|].
    replace (now + timedelta_hours h <? now) with true; [reflexivity|].
    symmetry. apply Z.ltb_lt. unfold timedelta_hours. lia.
  - apply Z.ltb_ge in Hneg.
    replace (now + timedelta_hours h <? Builder.EARLIEST_UTC_TIME) with false
      by (symmetry; apply Z.ltb_ge; unfold timedelta_hours; lia).
    replace (now + timedelta_hours h <? now) with false
      by (symmetry; apply Z.ltb_ge; unfold timedelta_hours; lia).
    rewrite alts_nonempty. reflexivity.
Qed.

Lemma generate_cert_after_ca self csr h w k w1 cac w2 an :
  get_ca_key self w = (Return k, w1) →
  get_ca_cert self k w1 = (Return cac, w2) →
  get (config self) "mtls" "alternate_name" = Return an →
  forallb all_ascii (PyStr.split ","%char an) = true →
  MINDATETIME ≤ clock w2 (ticks w2) ≤ MAXDATETIME →
  MINDATETIME ≤ clock w2 (ticks w2) + timedelta_hours h ≤ MAXDATETIME →
  generate_cert self csr h w
  = (if (clock w2 (ticks w2) <? Builder.EARLIEST_UTC_TIME) || (h <? 0)
     then Raise ValueError
     else Return (public_bytes
                    (leaf_certificate csr cac k (clock w2 (ticks w2)) h
                       (entropy w2 (draws w2) mod 2 ^ 128) an) PEM),
     after_issue w2).
Proof.
  intros Hk Hc Ha Hascii Hnow Hend.
  rewrite (generate_cert_stages self csr h w k w1 cac w2 Hk Hc).
  rewrite (add_timedelta_in_range _ _ Hnow Hend), Ha, Hascii. reflexivity.
Qed.

Lemma generate_cert_inv_full self csr h w pem w' :
  generate_cert self csr h w = (Return pem, w') →
  ∃ k w1 cac w2 an,
    get_ca_key self w = (Return k, w1)
    ∧ get_ca_cert self k w1 = (Return cac, w2)
    ∧ get (config self) "mtls" "alternate_name" = Return an
    ∧ forallb all_ascii (PyStr.split ","%char an) = true
    ∧ Builder.EARLIEST_UTC_TIME ≤ clock w2 (ticks w2)
    ∧ 0 ≤ h
    ∧ clock w2 (ticks w2) + timedelta_hours h ≤ MAXDATETIME
    ∧ pem = public_bytes
              (leaf_certificate csr cac k (clock w2 (ticks w2)) h
                 (entropy w2 (draws w2) mod 2 ^ 128) an) PEM
    ∧ w' = after_issue w2.
Proof.
  intros H.
  destruct (get_ca_key self w) as [[k|e] w1] eqn:Hk.
  2:{ unfold generate_cert, bind at 1 in H. rewrite Hk in H. discriminate. }
  destruct (get_ca_cert self k w1) as [[cac|e] w2] eqn:Hc.
  2:{ unfold generate_cert, bind at 1 in H. rewrite Hk in H.
      unfold bind at 1 in H. rewrite Hc in H. discriminate. }
  rewrite (generate_cert_stages self csr h w k w1 cac w2 Hk Hc) in H.
  destruct (add_timedelta (clock w2 (ticks w2)) (timedelta_hours h))
    as [expiry|e] eqn:Hadd; [|discriminate].
  destruct (add_timedelta_value _ _ _ Hadd) as [_ [Hlo Hhi]].
  destruct (get (config self) "mtls" "alternate_name") as [an|e] eqn:Ha;
    [|discriminate].
  destruct (forallb all_ascii (PyStr.split ","%char an)) eqn:Hascii;
    [|discriminate].
  destruct (clock w2 (ticks w2) <? Builder.EARLIEST_UTC_TIME) eqn:He;
    [discriminate|].
  destruct (h <? 0) eqn:Hh; [discriminate|]. simpl in H.
  apply Z.ltb_ge in He. apply Z.ltb_ge in Hh.
  exists k, w1, cac, w2, an. repeat split; try assumption; congruence.
Qed.

Lemma generate_cert_inv self csr h w pem w' :
  generate_cert self csr h w = (Return pem, w') →
  ∃ k w1 cac w2 an,
    get_ca_key self w = (Return k, w1)
    ∧ get_ca_cert self k w1 = (Return cac, w2)
    ∧ get (config self) "mtls" "alternate_name" = Return an
    ∧ Builder.EARLIEST_UTC_TIME ≤ clock w2 (ticks w2)
    ∧ 0 ≤ h
    ∧ pem = public_bytes
              (leaf_certificate csr cac k (clock w2 (ticks w2)) h
                 (entropy w2 (draws w2) mod 2 ^ 128) an) PEM
    ∧ w' = after_issue w2.
Proof.
  intros H.
  destruct (generate_cert_inv_full _ _ _ _ _ _ H)
    as (k & w1 & cac & w2 & an & Hk & Hc & Ha & _ & He & Hh & _ & Hpem & Hw).
  exists k, w1, cac, w2, an. auto 10.
Qed.

(** The file store after [generate_cert] is the one [get_ca_key] and
    [get_ca_cert] leave: issuing writes nothing of its own and undoes
    nothing. *)
Lemma generate_cert_fs self csr h w :
  fs (snd (generate_cert self csr h w))
  = match get_ca_key self w with
    | (Return k, w1) => fs (snd (get_ca_cert self k w1))
    | (Raise _, w1) => fs w1
    end.
Proof.
  destruct (get_ca_key self w) as [[k|e] w1] eqn:Hk.
  - destruct (get_ca_cert self k w1) as [[cac|e] w2] eqn:Hc.
    + rewrite (generate_cert_stages self csr h w k w1 cac w2 Hk Hc).
      repeat case_match; reflexivity.
    + unfold generate_cert, bind at 1. rewrite Hk. unfold bind at 1.
      rewrite Hc. reflexivity.
  - unfold generate_cert, bind at 1. rewrite Hk. reflexivity.
Qed.

(** ** Bootstrapping the CA certificate *)

Lemma build_ca_cert_eq key cn now serial :
  build_ca_cert key [{| oid := COMMON_NAME; value := cn |}] now serial
  = if (serial <=? 0) || (160 <=? Z.log2 serial + 1)
       || (now <? Builder.EARLIEST_UTC_TIME)
    then Raise ValueError
    else match add_timedelta now (timedelta_days 365) with
         | Raise e => Raise e
         | Return _ => Return (ca_certificate key cn now serial)
         end.
Proof.
  unfold build_ca_cert.
  cbn -[Z.mul Z.add Z.pow Z.modulo Z.ltb Z.leb Z.log2 timedelta_days
        add_timedelta whole_seconds].
  destruct (serial <=? 0); [reflexivity|].
  destruct (160 <=? Z.log2 serial + 1); [reflexivity|].
  cbn -[Z.mul Z.add Z.pow Z.modulo Z.ltb Z.leb Z.log2 timedelta_days
        add_timedelta whole_seconds].
  unfold Builder.not_valid_before. cbn [b_not_valid_before b_not_valid_after].
  destruct (now <? Builder.EARLIEST_UTC_TIME) eqn:He; [reflexivity|].
  apply Z.ltb_ge in He.
  cbn -[Z.mul Z.add Z.pow Z.modulo Z.ltb Z.leb Z.log2 timedelta_days
        add_timedelta whole_seconds].
  destruct (add_timedelta now (timedelta_days 365)) as [expiry|e] eqn:Hadd;
    [|reflexivity].
  destruct (add_timedelta_value _ _ _ Hadd) as [-> _].
  cbn -[Z.mul Z.add Z.pow Z.modulo Z.ltb Z.leb Z.log2 timedelta_days
        whole_seconds].
  unfold Builder.not_valid_after. cbn [b_not_valid_before b_not_valid_after].
  replace (now + timedelta_days 365 <? Builder.EARLIEST_UTC_TIME) with false
    by (symmetry; apply Z.ltb_ge; unfold timedelta_days; lia).
  replace (now + timedelta_days 365 <? now) with false
    by (symmetry; apply Z.ltb_ge; unfold timedelta_days; lia).
  reflexivity.
Qed.

Lemma get_ca_cert_absent_file self key w path cn :
  config_path (config self) (file_dir self) "ca_cert" w = (Return path, w) →
  fs w !! path = None →
  get (config self) "mtls" "issuer" = Return cn →
  let now := clock w (ticks w) in
  let serial := Z.shiftr (entropy w (draws w) mod 2 ^ 160) 1 in
  let cert := ca_certificate key cn now serial in
  get_ca_cert self key w
  = if negb ((1 <=? Z.of_nat (String.length cn))
             && (Z.of_nat (String.length cn) <=? 64))
    then (Raise ValueError, w)
    else if (serial <=? 0) || (now <? Builder.EARLIEST_UTC_TIME)
    then (Raise ValueError, after_issue w)
    else match add_timedelta now (timedelta_days 365) with
         | Raise e => (Raise e, after_issue w)
         | Return _ =>
             match fs w !! containing_dir w path with
             | Some (Directory true) =>
                 (Return cert,
                  set_fs (<[path := RegularFile (public_bytes cert PEM)
                                      true true]> (fs w))
                    (after_issue w))
             | Some (Directory false) => (Raise PermissionError, after_issue w)
             | Some (RegularFile _ _ _) =>
                 (Raise NotADirectoryError, after_issue w)
             | None => (Raise FileNotFoundError, after_issue w)
             end
         end.
Proof.
  intros Hp Hf Hi now serial cert.
  unfold get_ca_cert, random_serial_number. unfold bind at 1. rewrite Hp.
  py_unfold. rewrite Hf, Hi. unfold x509_NameAttribute.
  cbn -[Z.mul Z.add Z.pow Z.modulo Z.ltb Z.leb Z.log2 Z.shiftr build_ca_cert
        String.length containing_dir].
  destruct ((1 <=? Z.of_nat (String.length cn))
            && (Z.of_nat (String.length cn) <=? 64)); [|reflexivity].
  cbn -[Z.mul Z.add Z.pow Z.modulo Z.ltb Z.leb Z.log2 Z.shiftr build_ca_cert
        String.length containing_dir].
  change (8 * 20) with 160. fold now. fold serial.
  rewrite build_ca_cert_eq.
  destruct (serial <=? 0) eqn:Hs; [reflexivity|].
  apply Z.leb_gt in Hs.
  pose proof (random_serial_accepted (entropy w (draws w)) Hs) as Hlen.
  fold serial in Hlen. rewrite Hlen. cbn [orb].
  destruct (now <? Builder.EARLIEST_UTC_TIME); [reflexivity|].
  destruct (add_timedelta now (timedelta_days 365)); [|reflexivity].
  cbn [fs set_draws set_ticks]. rewrite Hf.
  change (containing_dir (set_draws (S (draws w)) (set_ticks (S (ticks w)) w))
            path) with (containing_dir w path).
  destruct (fs w !! containing_dir w path) as [[? ? ?|[]]|]; reflexivity.
Qed.

(** ** The tapes of the clock and of the random source are only read *)

Lemma get_ca_key_tapes self w o w' :
  get_ca_key self w = (o, w') →
  entropy w' = entropy w ∧ clock w' = clock w
  ∧ (draws w ≤ draws w')%nat ∧ (ticks w ≤ ticks w')%nat.
Proof.
  unfold get_ca_key, config_path, rsa_generate_private_key. py_unfold.
  cbn -[Z.pow Z.modulo Z.mul Z.div].
  intros H. repeat case_match; simplify_eq; simpl; repeat split; lia.
Qed.

Lemma get_ca_cert_tapes self key w o w' :
  get_ca_cert self key w = (o, w') →
  entropy w' = entropy w ∧ clock w' = clock w
  ∧ (draws w ≤ draws w')%nat ∧ (ticks w ≤ ticks w')%nat.
Proof.
  unfold get_ca_cert, config_path, random_serial_number. py_unfold.
  cbn -[Z.pow Z.modulo Z.mul Z.div Z.shiftr build_ca_cert].
  intros H. repeat case_match; simplify_eq; simpl; repeat split; lia.
Qed.

(** ** The claims on [generate_cert] *)




Example generate_cert_one_day :
  ∃ cert,
    fst (generate_cert (Fixture.processor "host1.example,host2.example")
           Fixture.csr 24 (Fixture.world Fixture.ready 7))
    = Return (public_bytes cert PEM)
    ∧ issuer cert = subject Fixture.ca_cert
    ∧ not_valid_before cert = 1540000000000000
    ∧ not_valid_after cert = 1540000000000000 + 24 * 3600 * 1000000.
Proof.
  exists (leaf_certificate Fixture.csr Fixture.ca_cert Fixture.ca_key
            1540000000000000 24 7 "host1.example,host2.example").
  split; [vm_compute; reflexivity|]. repeat split.
Qed.

(** C7, as the code has it: when the key file holds a key that parses and
    a certificate file exists, [generate_cert] leaves the file store as it
    found it, whatever it returns or raises. *)
Theorem generate_cert_keeps_ca_files self csr lifetime w
    key_path cert_path k fmt key_writable content readable cert_writable :
  config_path (config self) (file_dir self) "ca_key" w = (Return key_path, w) →
  config_path (config self) (file_dir self) "ca_cert" w = (Return cert_path, w) →
  fs w !! key_path
  = Some (RegularFile (KeyBytes k PEM fmt NoEncryption) true key_writable) →
  fs w !! cert_path = Some (RegularFile content readable cert_writable) →
  fs (snd (generate_cert self csr lifetime w)) = fs w.
Proof.
  intros Hkp Hcp Hkf Hcf.
  pose proof (get_ca_key_loads self w key_path Hkp k fmt key_writable Hkf) as Hk.
  pose proof (get_ca_cert_isfile self k w cert_path content readable
                cert_writable Hcp Hcf) as Hc.
  rewrite generate_cert_fs, Hk, Hc. reflexivity.
Qed.

Lemma generate_cert_keeps_ca_files_witness :
  fs (snd (generate_cert (Fixture.processor "") Fixture.csr 24
             (Fixture.world Fixture.ready 7)))
  = fs (Fixture.world Fixture.ready 7).
Proof.
  apply (generate_cert_keeps_ca_files (Fixture.processor "") Fixture.csr 24
           (Fixture.world Fixture.ready 7)
           "/srv/mtls/ca.key" "/srv/mtls/ca.crt" Fixture.ca_key
           TraditionalOpenSSL true (CertBytes Fixture.ca_cert PEM) true true);
    reflexivity.
Defined.

(** C7 as stated fails: on a key file that does not parse and no
    certificate file, one call replaces the first and creates the
    second. *)
Lemma generate_cert_writes_ca_files :
  fs (Fixture.world Fixture.corrupt 7) !! "/srv/mtls/ca.key"
  = Some (RegularFile (OtherBytes "garbage") true true)
  ∧ fs (snd (generate_cert (Fixture.processor "") Fixture.csr 24
               (Fixture.world Fixture.corrupt 7))) !! "/srv/mtls/ca.key"
    = Some (RegularFile
              (KeyBytes {| key_size := 4096; public_exponent := 65537;
                           secret := 7 |}
                        PEM TraditionalOpenSSL NoEncryption) true true)
  ∧ fs (Fixture.world Fixture.corrupt 7) !! "/srv/mtls/ca.crt" = None
  ∧ fs (snd (generate_cert (Fixture.processor "") Fixture.csr 24
               (Fixture.world Fixture.corrupt 7))) !! "/srv/mtls/ca.crt"
    ≠ None.
Proof.
  split; [reflexivity|]. split; [vm_compute; reflexivity|].
  split; [reflexivity|]. vm_compute. discriminate.
Qed.

(** The Subject-Alternative-Name extension is attached to every issued
    certificate and lists the pieces of the configured string. *)
Lemma generate_cert_san self csr lifetime w pem w' :
  generate_cert self csr lifetime w = (Return pem, w') →
  ∃ cert alternate_name,
    pem = public_bytes cert PEM
    ∧ get (config self) "mtls" "alternate_name" = Return alternate_name
    ∧ extensions cert
      = [{| ext_value := SubjectAlternativeName
                           (map DNSName (PyStr.split ","%char alternate_name));
            critical := false |}].
Proof.
  intros H.
  destruct (generate_cert_inv _ _ _ _ _ _ H)
    as (k & w1 & cac & w2 & an & Hk & Hc & Ha & He & Hh & Hpem & Hw).
  eexists _, an. split; [exact Hpem|]. split; [exact Ha|]. reflexivity.
Qed.

Example generate_cert_two_hosts :
  ∃ cert,
    fst (generate_cert (Fixture.processor "host1.example,host2.example")
           Fixture.csr 24 (Fixture.world Fixture.ready 7))
    = Return (public_bytes cert PEM)
    ∧ extensions cert
      = [{| ext_value := SubjectAlternativeName
                           [DNSName "host1.example"; DNSName "host2.example"];
            critical := false |}].
Proof.
  exists (leaf_certificate Fixture.csr Fixture.ca_cert Fixture.ca_key
            1540000000000000 24 7 "host1.example,host2.example").
  split; [vm_compute; reflexivity | reflexivity].
Qed.

(** C8, at the failing input: with the alternate names configured as the
    empty string, [split] still gives one piece, the empty name, so the
    test on the length of the list passes and every issued certificate
    carries a Subject-Alternative-Name extension listing one empty DNS
    name. *)
Theorem generate_cert_empty_alternate_name self csr lifetime w pem w' :
  get (config self) "mtls" "alternate_name" = Return "" →
  generate_cert self csr lifetime w = (Return pem, w') →
  ∃ cert,
    pem = public_bytes cert PEM
    ∧ extensions cert
      = [{| ext_value := SubjectAlternativeName [DNSName ""];
            critical := false |}].
Proof.
  intros Ha H.
  destruct (generate_cert_san _ _ _ _ _ _ H) as (cert & an & Hpem & Ha' & Hx).
  exists cert. split; [exact Hpem|].
  rewrite Ha in Ha'. injection Ha' as <-. exact Hx.
Qed.

Lemma generate_cert_empty_alternate_name_witness :
  ∃ cert,
    public_bytes
      (leaf_certificate Fixture.csr Fixture.ca_cert Fixture.ca_key
         1540000000000000 24 7 "") PEM
    = public_bytes cert PEM
    ∧ extensions cert
      = [{| ext_value := SubjectAlternativeName [DNSName ""];
            critical := false |}].
Proof.
  apply (generate_cert_empty_alternate_name (Fixture.processor "")
           Fixture.csr 24 (Fixture.world Fixture.ready 7) _
           (after_issue (Fixture.world Fixture.ready 7))).
  - reflexivity.
  - reflexivity.
Defined.

(** C10, as the code has it: [generate_cert] has no test of its own on
    the sign of the lifetime.  With the CA material loaded, the alternate
    names configured and ASCII, and a clock past the builder's earliest
    date, a lifetime of zero gives a signed certificate whose
    [not_valid_after] is its [not_valid_before]; a negative lifetime never
    gives one: when [now] plus the lifetime is still a date [datetime] can
    hold, the builder refuses a [not_valid_after] earlier than
    [not_valid_before] and [ValueError] leaves [generate_cert] after the
    serial number is drawn; when it is not, the addition itself raises
    [OverflowError], before the alternate names are read. *)
Theorem generate_cert_nonpositive_lifetime
    self csr lifetime w ca_pkey w1 ca_cert w2 alternate_name :
  get_ca_key self w = (Return ca_pkey, w1) →
  get_ca_cert self ca_pkey w1 = (Return ca_cert, w2) →
  get (config self) "mtls" "alternate_name" = Return alternate_name →
  forallb all_ascii (PyStr.split ","%char alternate_name) = true →
  Builder.EARLIEST_UTC_TIME ≤ clock w2 (ticks w2) ≤ MAXDATETIME →
  (lifetime = 0 →
     ∃ cert,
       generate_cert self csr lifetime w
       = (Return (public_bytes cert PEM), after_issue w2)
       ∧ signature_key cert = public_key ca_pkey
       ∧ not_valid_before cert = whole_seconds (clock w2 (ticks w2))
       ∧ not_valid_after cert = not_valid_before cert)
  ∧ (lifetime < 0 →
     (∀ pem w', generate_cert self csr lifetime w ≠ (Return pem, w'))
     ∧ (MINDATETIME ≤ clock w2 (ticks w2) + timedelta_hours lifetime →
        generate_cert self csr lifetime w = (Raise ValueError, after_issue w2))
     ∧ (clock w2 (ticks w2) + timedelta_hours lifetime < MINDATETIME →
        generate_cert self csr lifetime w
        = (Raise OverflowError, set_ticks (S (ticks w2)) w2))).
Proof.
  intros Hk Hc Ha Hascii [He Hmax].
  assert (Hnow : MINDATETIME ≤ clock w2 (ticks w2) ≤ MAXDATETIME)
    by (unfold Builder.EARLIEST_UTC_TIME, MINDATETIME in *; lia).
  split.
  - intros ->.
    rewrite (generate_cert_after_ca self csr 0 w ca_pkey w1 ca_cert w2
               alternate_name Hk Hc Ha Hascii Hnow)
      by (unfold timedelta_hours; lia).
    replace (clock w2 (ticks w2) <? Builder.EARLIEST_UTC_TIME) with false
      by (symmetry; apply Z.ltb_ge; exact He).
    eexists. split; [reflexivity|]. split; [reflexivity|].
    split; [reflexivity|]. simpl. unfold timedelta_hours.
    f_equal. lia.
  - intros Hneg. split; [|split].
    + intros pem w' H.
      destruct (generate_cert_inv _ _ _ _ _ _ H)
        as (_ & _ & _ & _ & _ & _ & _ & _ & _ & Hh & _). lia.
    + intros Hlo.
      rewrite (generate_cert_after_ca self csr lifetime w ca_pkey w1 ca_cert w2
                 alternate_name Hk Hc Ha Hascii Hnow)
        by (unfold timedelta_hours in *; lia).
      replace (lifetime <? 0) with true by (symmetry; apply Z.ltb_lt; exact Hneg).
      rewrite orb_true_r. reflexivity.
    + intros Hlo.
      rewrite (generate_cert_stages self csr lifetime w ca_pkey w1 ca_cert w2
                 Hk Hc).
      rewrite add_timedelta_out_of_range by lia. reflexivity.
Qed.

Lemma generate_cert_nonpositive_lifetime_witness :
  generate_cert (Fixture.processor "host1.example") Fixture.csr (-5)
    (Fixture.world Fixture.ready 7)
  = (Raise ValueError, after_issue (Fixture.world Fixture.ready 7)).
Proof.
  refine (proj1 (proj2 (proj2 (generate_cert_nonpositive_lifetime
                   (Fixture.processor "host1.example") Fixture.csr (-5)
                   (Fixture.world Fixture.ready 7)
                   Fixture.ca_key (Fixture.world Fixture.ready 7)
                   Fixture.ca_cert (Fixture.world Fixture.ready 7)
                   "host1.example" _ _ _ _ _) _)) _).
  - reflexivity.
  - reflexivity.
  - reflexivity.
  - reflexivity.
  - split; vm_compute; discriminate.
  - lia.
  - vm_compute. discriminate.
Defined.

(** C10 as stated fails: a lifetime of -1 returns no certificate. *)
Lemma generate_cert_negative_lifetime_raises :
  fst (generate_cert (Fixture.processor "host1.example") Fixture.csr (-1)
         (Fixture.world Fixture.ready 7))
  = Raise ValueError
  ∧ ¬ ∃ pem w',
        generate_cert (Fixture.processor "host1.example") Fixture.csr (-1)
          (Fixture.world Fixture.ready 7)
        = (Return pem, w').
Proof.
  assert (Hraise :
    fst (generate_cert (Fixture.processor "host1.example") Fixture.csr (-1)
           (Fixture.world Fixture.ready 7))
    = Raise ValueError) by (vm_compute; reflexivity).
  split; [exact Hraise|].
  intros (pem & w' & H). rewrite H in Hraise. discriminate.
Qed.

Example generate_cert_no_alternate_names :
  ∃ cert,
    fst (generate_cert (Fixture.processor "") Fixture.csr 24
           (Fixture.world Fixture.ready 7))
    = Return (public_bytes cert PEM)
    ∧ extensions cert
      = [{| ext_value := SubjectAlternativeName [DNSName ""];
            critical := false |}].
Proof.
  exists (leaf_certificate Fixture.csr Fixture.ca_cert Fixture.ca_key
            1540000000000000 24 7 "").
  split; [vm_compute; reflexivity | reflexivity].
Qed.

(** C9, as the code has it: the serial number of an issued certificate is
    the UUID4 integer of the sixteen bytes [generate_cert] draws from the
    random source, the last draw of the call and one no earlier call has
    consumed, and of nothing else; it is positive and below 2^128.  The
    serial numbers of two runs are equal exactly when the two draws agree
    on the 122 bits UUID4 does not force. *)
Theorem generate_cert_serial_of_draw
    self csr lifetime1 lifetime2 wa wb pem1 pem2 wa' wb' :
  generate_cert self csr lifetime1 wa = (Return pem1, wa') →
  generate_cert self csr lifetime2 wb = (Return pem2, wb') →
  ∃ cert1 cert2,
    pem1 = public_bytes cert1 PEM
    ∧ pem2 = public_bytes cert2 PEM
    ∧ entropy wa' = entropy wa
    ∧ entropy wb' = entropy wb
    ∧ (draws wa < draws wa')%nat
    ∧ (draws wb < draws wb')%nat
    ∧ serial_number cert1 = uuid4_int (last_draw wa')
    ∧ serial_number cert2 = uuid4_int (last_draw wb')
    ∧ 0 < serial_number cert1 < 2 ^ 128
    ∧ (serial_number cert1 = serial_number cert2
       ↔ Z.land (last_draw wa') uuid4_free_bits
         = Z.land (last_draw wb') uuid4_free_bits).
Proof.
  intros H1 H2.
  destruct (generate_cert_inv _ _ _ _ _ _ H1)
    as (k1 & u1 & c1 & v1 & an1 & Hk1 & Hc1 & _ & _ & _ & Hpem1 & Hw1).
  destruct (generate_cert_inv _ _ _ _ _ _ H2)
    as (k2 & u2 & c2 & v2 & an2 & Hk2 & Hc2 & _ & _ & _ & Hpem2 & Hw2).
  destruct (get_ca_key_tapes _ _ _ _ Hk1) as (Ek1 & _ & Dk1 & _).
  destruct (get_ca_cert_tapes _ _ _ _ _ Hc1) as (Ec1 & _ & Dc1 & _).
  destruct (get_ca_key_tapes _ _ _ _ Hk2) as (Ek2 & _ & Dk2 & _).
  destruct (get_ca_cert_tapes _ _ _ _ _ Hc2) as (Ec2 & _ & Dc2 & _).
  assert (L1 : last_draw wa' = entropy v1 (draws v1) mod 2 ^ 128)
    by (subst wa'; reflexivity).
  assert (L2 : last_draw wb' = entropy v2 (draws v2) mod 2 ^ 128)
    by (subst wb'; reflexivity).
  eexists _, _. split; [exact Hpem1|]. split; [exact Hpem2|].
  split; [subst wa'; simpl; congruence|].
  split; [subst wb'; simpl; congruence|].
  split; [subst wa'; simpl; lia|].
  split; [subst wb'; simpl; lia|].
  cbn [serial_number leaf_certificate]. rewrite L1, L2.
  split; [reflexivity|]. split; [reflexivity|].
  split; [apply uuid4_int_range, Z.mod_pos_bound; lia|].
  apply uuid4_int_eq_iff.
Qed.

Lemma generate_cert_serial_of_draw_witness :
  ∃ cert1 cert2,
    serial_number cert1 = uuid4_int 7
    ∧ serial_number cert2 = uuid4_int 8
    ∧ (serial_number cert1 = serial_number cert2
       ↔ Z.land 7 uuid4_free_bits = Z.land 8 uuid4_free_bits).
Proof.
  destruct (generate_cert_serial_of_draw
              (Fixture.processor "host1.example") Fixture.csr 24 48
              (Fixture.world Fixture.ready 7) (Fixture.world Fixture.ready 8)
              (public_bytes
                 (leaf_certificate Fixture.csr Fixture.ca_cert Fixture.ca_key
                    1540000000000000 24 7 "host1.example") PEM)
              (public_bytes
                 (leaf_certificate Fixture.csr Fixture.ca_cert Fixture.ca_key
                    1540000000000000 48 8 "host1.example") PEM)
              (after_issue (Fixture.world Fixture.ready 7))
              (after_issue (Fixture.world Fixture.ready 8))
              eq_refl eq_refl)
    as (c1 & c2 & _ & _ & _ & _ & _ & _ & S1 & S2 & _ & Hiff).
  exists c1, c2. split; [exact S1|]. split; [exact S2|]. exact Hiff.
Defined.

(** C9 as stated fails: two runs on the same CSR whose draws differ, in a
    bit that UUID4 forces, issue the same serial number. *)
Lemma generate_cert_same_serial_two_draws :
  ∃ cert1 cert2,
    generate_cert (Fixture.processor "host1.example") Fixture.csr 24
      (Fixture.world Fixture.ready 0)
    = (Return (public_bytes cert1 PEM),
       after_issue (Fixture.world Fixture.ready 0))
    ∧ generate_cert (Fixture.processor "host1.example") Fixture.csr 24
        (Fixture.world Fixture.ready (2 ^ 76))
      = (Return (public_bytes cert2 PEM),
         after_issue (Fixture.world Fixture.ready (2 ^ 76)))
    ∧ last_draw (after_issue (Fixture.world Fixture.ready 0)) = 0
    ∧ last_draw (after_issue (Fixture.world Fixture.ready (2 ^ 76))) = 2 ^ 76
    ∧ serial_number cert1 = serial_number cert2.
Proof.
  exists (leaf_certificate Fixture.csr Fixture.ca_cert Fixture.ca_key
            1540000000000000 24 0 "host1.example"),
         (leaf_certificate Fixture.csr Fixture.ca_cert Fixture.ca_key
            1540000000000000 24 (2 ^ 76) "host1.example").
  split; [reflexivity|]. split; [reflexivity|].
  split; [reflexivity|]. split; [reflexivity|].
  vm_compute. reflexivity.
Qed.

(** C4, as the code has it: with no file at the configured path,
    whatever [get_ca_cert] returns is a self-signed certificate for the
    configured issuer that carries the public half of the key, is valid
    from the whole second of the clock reading for exactly 365 days, the
    lifetime the code fixes, carries the four CA extensions, is signed by
    the key over SHA-256, and is the content of the file written at the
    path; and [get_ca_cert] does return one when the issuer is configured
    with 1 to 64 bytes, the clock is past the builder's earliest date and
    a year before the last date [datetime] holds, the drawn serial number
    is not zero, and the directory of the path exists and is writable. *)
Theorem get_ca_cert_bootstraps self key w path :
  config_path (config self) (file_dir self) "ca_cert" w = (Return path, w) →
  fs w !! path = None →
  (∀ cert w',
     get_ca_cert self key w = (Return cert, w') →
     ∃ cn,
       get (config self) "mtls" "issuer" = Return cn
       ∧ subject cert = [{| oid := COMMON_NAME; value := cn |}]
       ∧ issuer cert = subject cert
       ∧ cert_public_key cert = public_key key
       ∧ not_valid_before cert = whole_seconds (clock w (ticks w))
       ∧ not_valid_before cert ≤ clock w (ticks w)
         < not_valid_before cert + 1000000
       ∧ not_valid_after cert = not_valid_before cert + timedelta_days 365
       ∧ extensions cert
         = [{| ext_value := SubjectKeyIdentifier (DigestOf (public_key key));
               critical := false |};
            {| ext_value := AuthorityKeyIdentifier (DigestOf (public_key key))
                              [DirectoryName (issuer cert)]
                              (serial_number cert);
               critical := false |};
            {| ext_value := BasicConstraints true (Some 0); critical := true |};
            {| ext_value := KeyUsage {| digital_signature := true;
                                        content_commitment := false;
                                        key_encipherment := false;
                                        data_encipherment := false;
                                        key_agreement := false;
                                        key_cert_sign := true;
                                        crl_sign := true;
                                        encipher_only := false;
                                        decipher_only := false |};
               critical := true |}]
       ∧ signature_hash_algorithm cert = SHA256
       ∧ signature_key cert = public_key key
       ∧ fs w' = <[path := RegularFile (public_bytes cert PEM) true true]> (fs w))
  ∧ (∀ cn,
       get (config self) "mtls" "issuer" = Return cn →
       (1 ≤ String.length cn ≤ 64)%nat →
       Builder.EARLIEST_UTC_TIME ≤ clock w (ticks w) →
       clock w (ticks w) + timedelta_days 365 ≤ MAXDATETIME →
       0 < Z.shiftr (entropy w (draws w) mod 2 ^ 160) 1 →
       fs w !! containing_dir w path = Some (Directory true) →
       ∃ cert w', get_ca_cert self key w = (Return cert, w')).
Proof.
  intros Hp Hf. split.
  - intros cert w' H.
    destruct (get (config self) "mtls" "issuer") as [cn|e] eqn:Hi.
    2:{ unfold get_ca_cert, bind at 1 in H. rewrite Hp in H.
        py_unfold. rewrite Hf, Hi in H. discriminate. }
    rewrite (get_ca_cert_absent_file self key w path cn Hp Hf Hi) in H.
    cbv zeta in H.
    destruct (negb ((1 <=? Z.of_nat (String.length cn))
                    && (Z.of_nat (String.length cn) <=? 64)));
      [discriminate|].
    destruct ((Z.shiftr (entropy w (draws w) mod 2 ^ 160) 1 <=? 0)
              || (clock w (ticks w) <? Builder.EARLIEST_UTC_TIME));
      [discriminate|].
    destruct (add_timedelta (clock w (ticks w)) (timedelta_days 365));
      [|discriminate].
    destruct (fs w !! containing_dir w path) as [[? ? ?|[]]|];
      try discriminate.
    injection H as <- <-. exists cn.
    cbn [subject issuer cert_public_key not_valid_before not_valid_after
         extensions signature_hash_algorithm signature_key serial_number
         ca_certificate].
    split; [reflexivity|]. split; [reflexivity|]. split; [reflexivity|].
    split; [reflexivity|]. split; [reflexivity|].
    split; [apply whole_seconds_le|].
    split; [apply whole_seconds_add_days|]. repeat split.
  - intros cn Hi Hlen He Hmax Hs Hdir.
    rewrite (get_ca_cert_absent_file self key w path cn Hp Hf Hi). cbv zeta.
    replace ((1 <=? Z.of_nat (String.length cn))
             && (Z.of_nat (String.length cn) <=? 64)) with true
      by (symmetry; apply andb_true_intro; split; apply Z.leb_le; lia).
    replace (Z.shiftr (entropy w (draws w) mod 2 ^ 160) 1 <=? 0) with false
      by (symmetry; apply Z.leb_gt; exact Hs).
    replace (clock w (ticks w) <? Builder.EARLIEST_UTC_TIME) with false
      by (symmetry; apply Z.ltb_ge; exact He).
    rewrite add_timedelta_in_range
      by (unfold Builder.EARLIEST_UTC_TIME, MINDATETIME, MAXDATETIME,
            timedelta_days in *; lia).
    rewrite Hdir. eexists _, _. reflexivity.
Qed.

Lemma get_ca_cert_bootstraps_witness :
  ∃ cert w',
    get_ca_cert (Fixture.processor "") Fixture.ca_key
      (Fixture.world Fixture.key_only 7)
    = (Return cert, w').
Proof.
  refine (proj2 (get_ca_cert_bootstraps (Fixture.processor "") Fixture.ca_key
                   (Fixture.world Fixture.key_only 7) "/srv/mtls/ca.crt" _ _)
            "test-ca" _ _ _ _ _ _).
  - reflexivity.
  - reflexivity.
  - reflexivity.
  - vm_compute. lia.
  - vm_compute. discriminate.
  - vm_compute. discriminate.
  - vm_compute. reflexivity.
  - reflexivity.
Defined.

(** C4 as stated fails: [get_ca_cert] takes no number of days; the
    certificate it builds is valid for 365 days, not for the thirty a
    caller may want. *)
Lemma get_ca_cert_validity_is_fixed :
  ∃ cert,
    fst (get_ca_cert (Fixture.processor "") Fixture.ca_key
           (Fixture.world Fixture.key_only 7))
    = Return cert
    ∧ not_valid_after cert = not_valid_before cert + timedelta_days 365
    ∧ not_valid_after cert ≠ not_valid_before cert + timedelta_days 30.
Proof.
  exists (ca_certificate Fixture.ca_key "test-ca" 1540000000000000 3).
  split; [vm_compute; reflexivity|].
  split; [vm_compute; reflexivity | vm_compute; discriminate].
Qed.

(** * Further properties of the methods *)

(** ** Path resolution *)

Lemma config_path_cwd conf dir key w w2 o :
  cwd w2 = cwd w →
  config_path conf dir key w = (o, w) →
  config_path conf dir key w2 = (o, w2).
Proof.
  unfold config_path. py_unfold. intros Hc.
  destruct (get conf "mtls" key) as [p|e]; [|congruence].
  destruct (OsPath.isabs p); rewrite ?Hc; congruence.
Qed.

Lemma config_path_total conf dir key w :
  ∃ o, config_path conf dir key w = (o, w).
Proof.
  destruct (config_path conf dir key w) as [o w'] eqn:H.
  rewrite (config_path_world _ _ _ _ _ _ H). eauto.
Qed.

Lemma isabs_cons p : OsPath.isabs p = true ↔ ∃ rest, p = String "/"%char rest.
Proof.
  unfold OsPath.isabs, PyStr.startswith. split.
  - destruct p as [|c rest]; cbn -[Ascii.ascii_dec]; [discriminate|].
    destruct (Ascii.ascii_dec "/"%char c) as [<-|]; [eauto | discriminate].
  - intros [rest ->]. cbn -[Ascii.ascii_dec].
    destruct (Ascii.ascii_dec "/"%char "/"%char); [|congruence].
    destruct rest; reflexivity.
Qed.

Lemma isabs_app p q : OsPath.isabs p = true → OsPath.isabs (p ++ q) = true.
Proof.
  intros H. apply isabs_cons in H as [rest ->]. apply isabs_cons.
  exists (rest ++ q). reflexivity.
Qed.

Lemma isabs_join dir p :
  OsPath.isabs dir = true → OsPath.isabs (OsPath.join dir p) = true.
Proof.
  intros H. unfold OsPath.join. destruct (OsPath.isabs p) eqn:Hp; [exact Hp|].
  destruct (String.eqb dir "" || PyStr.endswith_char dir "/"%char);
    apply isabs_app; exact H.
Qed.

Lemma isabs_normpath p :
  OsPath.isabs p = true → OsPath.isabs (OsPath.normpath p) = true.
Proof.
  intros H. pose proof H as H'. apply isabs_cons in H' as [rest ->].
  unfold OsPath.normpath.
  change (String.eqb (String "/"%char rest) "") with false. cbv iota.
  unfold OsPath.isabs in H. rewrite H.
  destruct (PyStr.startswith (String "/"%char rest) "//"
            && negb (PyStr.startswith (String "/"%char rest) "///")).
  - simpl. reflexivity.
  - simpl. match goal with |- context [PyStr.join ?s ?l] =>
             destruct (PyStr.join s l) end; reflexivity.
Qed.

(** X1: with the module in an absolute directory, the path an option
    names is always absolute and does not depend on the working
    directory: an absolute value is used as it is written, a relative one
    is joined to the directory of the module and normalised. *)
Theorem config_path_module_relative conf dir key p w :
  get conf "mtls" key = Return p →
  OsPath.isabs dir = true →
  ∃ path,
    config_path conf dir key w = (Return path, w)
    ∧ OsPath.isabs path = true
    ∧ (OsPath.isabs p = true → path = p)
    ∧ (OsPath.isabs p = false
       → path = OsPath.normpath (OsPath.join dir p)).
Proof.
  intros Hg Hd. unfold config_path. py_unfold. rewrite Hg.
  destruct (OsPath.isabs p) eqn:Hp.
  - exists p. repeat split; [exact Hp | discriminate].
  - unfold OsPath.abspath. rewrite (isabs_join dir p Hd).
    eexists. split; [reflexivity|].
    split; [apply isabs_normpath, isabs_join, Hd|].
    split; [discriminate | reflexivity].
Qed.

Lemma config_path_module_relative_witness :
  ∃ path,
    config_path (<["mtls" := <["ca_key" := "secrets/../ca.key"]> ∅]> ∅)
      "/srv/mtls" "ca_key" (Fixture.world ∅ 0)
    = (Return path, Fixture.world ∅ 0)
    ∧ OsPath.isabs path = true
    ∧ (OsPath.isabs "secrets/../ca.key" = true → path = "secrets/../ca.key")
    ∧ (OsPath.isabs "secrets/../ca.key" = false
       → path = OsPath.normpath (OsPath.join "/srv/mtls" "secrets/../ca.key")).
Proof.
  apply (config_path_module_relative
           (<["mtls" := <["ca_key" := "secrets/../ca.key"]> ∅]> ∅)
           "/srv/mtls" "ca_key" "secrets/../ca.key" (Fixture.world ∅ 0));
    reflexivity.
Defined.

(** ** What [get_ca_key] and [get_ca_cert] do to the world *)

(** The three ways [get_ca_key] ends: the stored key is loaded and the
    world is as before; the file, readable and writable but no key, is
    replaced by a fresh key; or an exception leaves, the file store as
    before. *)
Lemma get_ca_key_cases self w o w' :
  get_ca_key self w = (o, w') →
  (∃ path k fmt writable,
     config_path (config self) (file_dir self) "ca_key" w = (Return path, w)
     ∧ fs w !! path
       = Some (RegularFile (KeyBytes k PEM fmt NoEncryption) true writable)
     ∧ o = Return k ∧ w' = w)
  ∨ (∃ path content,
       config_path (config self) (file_dir self) "ca_key" w = (Return path, w)
       ∧ fs w !! path = Some (RegularFile content true true)
       ∧ load_pem_private_key content = Raise ValueError
       ∧ o = Return (fresh_key w) ∧ w' = regenerated self path w)
  ∨ (∃ e, o = Raise e ∧ fs w' = fs w ∧ cwd w' = cwd w).
Proof.
  intros H.
  destruct (config_path_total (config self) (file_dir self) "ca_key" w)
    as [[path|e] Hp].
  2:{ right. right. unfold get_ca_key, bind at 1 in H. rewrite Hp in H.
      injection H as <- <-. eauto. }
  destruct (fs w !! path) as [[content readable writable|]|] eqn:Hf.
  - destruct readable.
    + destruct (load_pem_private_key content) as [k|e] eqn:Hl.
      * left. destruct content as [k0 [] fmt []| | |]; try discriminate.
        injection Hl as ->.
        rewrite (get_ca_key_loads self w path Hp k fmt writable Hf) in H.
        injection H as <- <-. eauto 10.
      * destruct (is_ValueError e) eqn:He.
        -- destruct e; try discriminate. destruct writable.
           ++ right. left.
              rewrite (get_ca_key_regenerates self w path Hp content Hf Hl) in H.
              injection H as <- <-. eauto 10.
           ++ right. right. unfold get_ca_key, bind at 1 in H.
              rewrite Hp in H. unfold rsa_generate_private_key in H.
              py_unfold. rewrite Hf in H. simpl in H. rewrite Hl in H.
              simpl in H. rewrite Hf in H. injection H as <- <-. eauto.
        -- right. right. unfold get_ca_key, bind at 1 in H.
           rewrite Hp in H. py_unfold. rewrite Hf in H. simpl in H.
           rewrite Hl in H. rewrite He in H. injection H as <- <-. eauto.
    + right. right.
      rewrite (get_ca_key_unreadable self w path Hp content writable Hf) in H.
      injection H as <- <-. eauto.
  - right. right. unfold get_ca_key, bind at 1 in H. rewrite Hp in H.
    py_unfold. rewrite Hf in H. injection H as <- <-. eauto.
  - right. right. unfold get_ca_key, bind at 1 in H. rewrite Hp in H.
    py_unfold. rewrite Hf in H. injection H as <- <-. eauto.
Qed.

(** The three ways [get_ca_cert] ends: the stored certificate is loaded
    and the world is as before; no file being there, a certificate is
    built and written; or an exception leaves, the file store as before. *)
Lemma get_ca_cert_cases self key w o w' :
  get_ca_cert self key w = (o, w') →
  (∃ path c writable,
     config_path (config self) (file_dir self) "ca_cert" w = (Return path, w)
     ∧ fs w !! path = Some (RegularFile (CertBytes c PEM) true writable)
     ∧ o = Return c ∧ w' = w)
  ∨ (∃ path cn,
       config_path (config self) (file_dir self) "ca_cert" w = (Return path, w)
       ∧ fs w !! path = None
       ∧ get (config self) "mtls" "issuer" = Return cn
       ∧ o = Return (ca_certificate key cn (clock w (ticks w))
                       (Z.shiftr (entropy w (draws w) mod 2 ^ 160) 1))
       ∧ w' = set_fs (<[path := RegularFile
                                  (public_bytes
                                     (ca_certificate key cn (clock w (ticks w))
                                        (Z.shiftr (entropy w (draws w) mod 2 ^ 160) 1))
                                     PEM)
                                  true true]> (fs w))
                (after_issue w))
  ∨ (∃ e, o = Raise e ∧ fs w' = fs w ∧ cwd w' = cwd w).
Proof.
  intros H.
  destruct (config_path_total (config self) (file_dir self) "ca_cert" w)
    as [[path|e] Hp].
  2:{ right. right. unfold get_ca_cert, bind at 1 in H. rewrite Hp in H.
      injection H as <- <-. eauto. }
  destruct (fs w !! path) as [[content readable writable|dw]|] eqn:Hf.
  - rewrite (get_ca_cert_isfile self key w path content readable writable Hp Hf)
      in H.
    destruct readable.
    + destruct content as [| c [] | |]; simpl in H;
        injection H as <- <-; try (right; right; eauto; fail).
      left. eauto 10.
    + injection H as <- <-. right. right. eauto.
  - right. right. unfold get_ca_cert, bind at 1 in H. rewrite Hp in H.
    unfold random_serial_number in H. py_unfold. rewrite Hf in H.
    cbn -[Z.pow Z.modulo Z.mul Z.shiftr build_ca_cert x509_NameAttribute] in H.
    destruct (get (config self) "mtls" "issuer"); [|injection H as <- <-; eauto].
    cbn -[Z.pow Z.modulo Z.mul Z.shiftr build_ca_cert x509_NameAttribute] in H.
    destruct (x509_NameAttribute COMMON_NAME a);
      [|injection H as <- <-; eauto].
    cbn -[Z.pow Z.modulo Z.mul Z.shiftr build_ca_cert] in H.
    destruct (build_ca_cert _ _ _ _); [|injection H as <- <-; eauto].
    cbn -[Z.pow Z.modulo Z.mul Z.shiftr build_ca_cert] in H.
    rewrite Hf in H. injection H as <- <-. eauto.
  - destruct (get (config self) "mtls" "issuer") as [cn|e] eqn:Hi.
    + rewrite (get_ca_cert_absent_file self key w path cn Hp Hf Hi) in H.
      cbv zeta in H.
      destruct (negb ((1 <=? Z.of_nat (String.length cn))
                      && (Z.of_nat (String.length cn) <=? 64)));
        [injection H as <- <-; right; right; eauto|].
      destruct ((Z.shiftr (entropy w (draws w) mod 2 ^ 160) 1 <=? 0)
                || (clock w (ticks w) <? Builder.EARLIEST_UTC_TIME));
        [injection H as <- <-; right; right; eauto|].
      destruct (add_timedelta (clock w (ticks w)) (timedelta_days 365));
        [|injection H as <- <-; right; right; eauto].
      destruct (fs w !! containing_dir w path) as [[? ? ?|[]]|];
        injection H as <- <-; try (right; right; eauto; fail).
      right. left. eauto 10.
    + right. right. unfold get_ca_cert, bind at 1 in H. rewrite Hp in H.
      py_unfold. rewrite Hf, Hi in H. injection H as <- <-. eauto.
Qed.

Lemma init_fields GPG_new conf dir w0 self w0' :
  init GPG_new conf dir w0 = (Return self, w0') →
  config self = conf ∧ file_dir self = dir
  ∧ openssl_format self = TraditionalOpenSSL
  ∧ no_encyption self = NoEncryption.
Proof.
  unfold init, bind.
  destruct (config_path conf dir "gnupg_home" w0) as [[p|e] w1];
    [|discriminate].
  unfold ret. intros H. injection H as <- _. repeat split.
Qed.

(** Once [get_ca_key] has returned a key, the key file holds it, provided
    the processor stores keys unencrypted. *)
Lemma get_ca_key_stored self w k w1 :
  no_encyption self = NoEncryption →
  get_ca_key self w = (Return k, w1) →
  ∃ path fmt writable,
    config_path (config self) (file_dir self) "ca_key" w = (Return path, w)
    ∧ fs w !! path ≠ None
    ∧ fs w1 !! path
      = Some (RegularFile (KeyBytes k PEM fmt NoEncryption) true writable)
    ∧ cwd w1 = cwd w.
Proof.
  intros Hn H.
  destruct (get_ca_key_cases self w _ _ H)
    as [(path & k' & fmt & wr & Hp & Hf & Ho & ->)
       |[(path & content & Hp & Hf & Hl & Ho & ->)|(e & Ho & _)]].
  - injection Ho as <-. exists path, fmt, wr.
    split; [exact Hp|]. split; [congruence|]. split; [exact Hf | reflexivity].
  - injection Ho as ->. exists path, (openssl_format self), true.
    split; [exact Hp|]. split; [congruence|]. split; [|reflexivity].
    unfold regenerated, private_bytes. simpl. rewrite Hn.
    apply lookup_insert_eq.
  - discriminate.
Qed.

(** Once [get_ca_cert] has returned a certificate, the certificate file
    holds it; the other files are as before. *)
Lemma get_ca_cert_stored self key w c w' :
  get_ca_cert self key w = (Return c, w') →
  ∃ path writable,
    config_path (config self) (file_dir self) "ca_cert" w = (Return path, w)
    ∧ fs w' !! path = Some (RegularFile (CertBytes c PEM) true writable)
    ∧ (fs w' = fs w ∨ fs w !! path = None)
    ∧ (∀ p, p ≠ path → fs w' !! p = fs w !! p)
    ∧ cwd w' = cwd w.
Proof.
  intros H.
  destruct (get_ca_cert_cases self key w _ _ H)
    as [(path & c' & wr & Hp & Hf & Ho & ->)
       |[(path & cn & Hp & Hf & Hi & Ho & ->)|(e & Ho & _)]].
  - injection Ho as <-. exists path, wr. auto 10.
  - injection Ho as ->. exists path, true.
    split; [exact Hp|]. split; [simpl; apply lookup_insert_eq|].
    split; [right; exact Hf|]. split; [|reflexivity].
    intros p Hne. simpl. apply lookup_insert_ne. congruence.
  - discriminate.
Qed.

Lemma get_ca_key_frame self w o w1 p :
  get_ca_key self w = (o, w1) →
  (∀ kp, config_path (config self) (file_dir self) "ca_key" w = (Return kp, w)
         → p ≠ kp) →
  fs w1 !! p = fs w !! p.
Proof.
  intros H Hne.
  destruct (get_ca_key_cases self w _ _ H)
    as [(path & k' & fmt & wr & Hp & Hf & Ho & ->)
       |[(path & content & Hp & Hf & Hl & Ho & ->)|(e & Ho & Hfs & _)]].
  - reflexivity.
  - simpl. apply lookup_insert_ne. intros <-. exact (Hne _ Hp eq_refl).
  - rewrite Hfs. reflexivity.
Qed.

Lemma get_ca_key_cwd self w o w1 :
  get_ca_key self w = (o, w1) → cwd w1 = cwd w.
Proof.
  intros H.
  destruct (get_ca_key_cases self w _ _ H)
    as [(path & k' & fmt & wr & Hp & Hf & Ho & ->)
       |[(path & content & Hp & Hf & Hl & Ho & ->)|(e & Ho & _ & Hc)]];
    [reflexivity | reflexivity | exact Hc].
Qed.

Lemma get_ca_cert_frame self key w o w1 p :
  get_ca_cert self key w = (o, w1) →
  (∀ cp, config_path (config self) (file_dir self) "ca_cert" w = (Return cp, w)
         → p ≠ cp) →
  fs w1 !! p = fs w !! p.
Proof.
  intros H Hne.
  destruct (get_ca_cert_cases self key w _ _ H)
    as [(path & c' & wr & Hp & Hf & Ho & ->)
       |[(path & cn & Hp & Hf & Hi & Ho & ->)|(e & Ho & Hfs & _)]].
  - reflexivity.
  - simpl. apply lookup_insert_ne. intros <-. exact (Hne _ Hp eq_refl).
  - rewrite Hfs. reflexivity.
Qed.

(** ** The CA key file *)

(** X2: a key file that can be read and written but does not hold a PEM
    private key is replaced: [get_ca_key] returns a fresh RSA key of 4096
    bits with exponent 65537, made from one reading of the random source,
    and the file then holds that key in PEM, in the format and under the
    encryption the processor was built with; two lines are logged. *)
Theorem get_ca_key_replaces_unparseable_file self w path content :
  config_path (config self) (file_dir self) "ca_key" w = (Return path, w) →
  fs w !! path = Some (RegularFile content true true) →
  load_pem_private_key content = Raise ValueError →
  ∃ k w',
    get_ca_key self w = (Return k, w')
    ∧ key_size k = 4096
    ∧ public_exponent k = 65537
    ∧ secret k = entropy w (draws w) mod 2 ^ 4096
    ∧ fs w' = <[path := RegularFile
                           (private_bytes k PEM (openssl_format self)
                                          (no_encyption self))
                           true true]> (fs w)
    ∧ draws w' = S (draws w)
    ∧ ticks w' = ticks w
    ∧ log w' = (log w ++ [LogText ("Erroring opening file: " ++ path);
                          LogText "Generating new key..."])%list.
Proof.
  intros Hp Hf Hl. exists (fresh_key w), (regenerated self path w).
  split; [exact (get_ca_key_regenerates self w path Hp content Hf Hl)|].
  repeat split.
Qed.

Lemma get_ca_key_replaces_unparseable_file_witness :
  ∃ k w',
    get_ca_key (Fixture.processor "") (Fixture.world Fixture.corrupt 7)
    = (Return k, w')
    ∧ key_size k = 4096.
Proof.
  destruct (get_ca_key_replaces_unparseable_file (Fixture.processor "")
              (Fixture.world Fixture.corrupt 7) "/srv/mtls/ca.key"
              (OtherBytes "garbage") eq_refl eq_refl eq_refl)
    as (k & w' & H & Hsize & _).
  exists k, w'. split; [exact H | exact Hsize].
Defined.

(** X3: [get_ca_key] changes a file only when it is the configured key
    file, readable and writable, whose content did not parse as a PEM
    private key, and then it returns the key it wrote there.  So a key
    that parses, an encrypted key, an unreadable file and every other file
    are never written, and a call that raises has written nothing. *)
Theorem get_ca_key_writes_only_over_unparseable self w o w' p :
  get_ca_key self w = (o, w') →
  fs w' !! p ≠ fs w !! p →
  ∃ content k,
    config_path (config self) (file_dir self) "ca_key" w = (Return p, w)
    ∧ fs w !! p = Some (RegularFile content true true)
    ∧ load_pem_private_key content = Raise ValueError
    ∧ o = Return k
    ∧ key_size k = 4096
    ∧ fs w' !! p
      = Some (RegularFile
                (private_bytes k PEM (openssl_format self) (no_encyption self))
                true true).
Proof.
  intros H Hne.
  destruct (get_ca_key_cases self w _ _ H)
    as [(path & k' & fmt & wr & Hp & Hf & Ho & ->)
       |[(path & content & Hp & Hf & Hl & Ho & ->)|(e & Ho & Hfs & _)]].
  - congruence.
  - destruct (decide (path = p)) as [->|Hd].
    + exists content, (fresh_key w). repeat split; try assumption.
      simpl. apply lookup_insert_eq.
    + exfalso. apply Hne. simpl. apply lookup_insert_ne. exact Hd.
  - rewrite Hfs in Hne. congruence.
Qed.

Lemma get_ca_key_writes_only_over_unparseable_witness :
  ∃ content,
    fs (Fixture.world Fixture.corrupt 7) !! "/srv/mtls/ca.key"
    = Some (RegularFile content true true)
    ∧ load_pem_private_key content = Raise ValueError.
Proof.
  destruct (get_ca_key_writes_only_over_unparseable (Fixture.processor "")
              (Fixture.world Fixture.corrupt 7)
              (Return (fresh_key (Fixture.world Fixture.corrupt 7)))
              (regenerated (Fixture.processor "") "/srv/mtls/ca.key"
                 (Fixture.world Fixture.corrupt 7))
              "/srv/mtls/ca.key" eq_refl)
    as (content & k & _ & Hf & Hl & _).
  - intros H. vm_compute in H. discriminate.
  - exists content. split; [exact Hf | exact Hl].
Defined.

(** X4: for a processor built by [__init__], which stores keys
    unencrypted, [get_ca_key] is idempotent: once it has returned a key,
    loaded or freshly generated, the next call returns the same key and
    changes nothing. *)
Theorem get_ca_key_again GPG_new conf dir w0 w0' self w k w1 :
  init GPG_new conf dir w0 = (Return self, w0') →
  get_ca_key self w = (Return k, w1) →
  get_ca_key self w1 = (Return k, w1).
Proof.
  intros Hinit H.
  destruct (init_fields _ _ _ _ _ _ Hinit) as (_ & _ & _ & Hn).
  destruct (get_ca_key_stored self w k w1 Hn H)
    as (path & fmt & wr & Hp & _ & Hf & Hc).
  apply (get_ca_key_loads self w1 path
           (config_path_cwd _ _ _ w w1 _ Hc Hp) k fmt wr Hf).
Qed.

Lemma get_ca_key_again_witness :
  get_ca_key (Fixture.processor "")
    (regenerated (Fixture.processor "") "/srv/mtls/ca.key"
       (Fixture.world Fixture.corrupt 7))
  = (Return (fresh_key (Fixture.world Fixture.corrupt 7)),
     regenerated (Fixture.processor "") "/srv/mtls/ca.key"
       (Fixture.world Fixture.corrupt 7)).
Proof.
  apply (get_ca_key_again (λ _, Fixture.keyring) (Fixture.conf "")
           "/srv/mtls" (Fixture.world ∅ 0) (Fixture.world ∅ 0)
           (Fixture.processor "") (Fixture.world Fixture.corrupt 7)).
  - reflexivity.
  - reflexivity.
Defined.

(** ** The CA certificate file *)

(** X5: once [get_ca_cert] has returned a certificate, loaded or freshly
    built, every later call returns that certificate and changes nothing,
    whatever key it is given. *)
Theorem get_ca_cert_again self key w c w' key' :
  get_ca_cert self key w = (Return c, w') →
  get_ca_cert self key' w' = (Return c, w').
Proof.
  intros H.
  destruct (get_ca_cert_stored self key w c w' H)
    as (path & wr & Hp & Hf & _ & _ & Hc).
  rewrite (get_ca_cert_isfile self key' w' path (CertBytes c PEM) true wr
             (config_path_cwd _ _ _ w w' _ Hc Hp) Hf).
  reflexivity.
Qed.

Lemma get_ca_cert_again_witness :
  get_ca_cert (Fixture.processor "") Fixture.ca_key
    (Fixture.world Fixture.ready 7)
  = (Return Fixture.ca_cert, Fixture.world Fixture.ready 7).
Proof.
  apply (get_ca_cert_again (Fixture.processor "")
           {| key_size := 2048; public_exponent := 3; secret := 1 |}
           (Fixture.world Fixture.ready 7) Fixture.ca_cert
           (Fixture.world Fixture.ready 7) Fixture.ca_key).
  reflexivity.
Defined.

(** X6: [get_ca_cert] changes a file only when it is the configured
    certificate path and nothing was there, and then the file holds, in
    PEM, the certificate it returns, signed by the key it was given.  An
    existing file is never written, and a call that raises has written
    nothing. *)
Theorem get_ca_cert_writes_only_new_file self key w o w' p :
  get_ca_cert self key w = (o, w') →
  fs w' !! p ≠ fs w !! p →
  ∃ c,
    config_path (config self) (file_dir self) "ca_cert" w = (Return p, w)
    ∧ fs w !! p = None
    ∧ o = Return c
    ∧ signature_key c = public_key key
    ∧ cert_public_key c = public_key key
    ∧ fs w' !! p = Some (RegularFile (public_bytes c PEM) true true).
Proof.
  intros H Hne.
  destruct (get_ca_cert_cases self key w _ _ H)
    as [(path & c' & wr & Hp & Hf & Ho & ->)
       |[(path & cn & Hp & Hf & Hi & Ho & ->)|(e & Ho & Hfs & _)]].
  - congruence.
  - destruct (decide (path = p)) as [->|Hd].
    + eexists. split; [exact Hp|]. split; [exact Hf|]. split; [exact Ho|].
      split; [reflexivity|]. split; [reflexivity|].
      simpl. apply lookup_insert_eq.
    + exfalso. apply Hne. simpl. apply lookup_insert_ne. exact Hd.
  - rewrite Hfs in Hne. congruence.
Qed.

Lemma get_ca_cert_writes_only_new_file_witness :
  fs (Fixture.world Fixture.key_only 7) !! "/srv/mtls/ca.crt" = None.
Proof.
  destruct (get_ca_cert_writes_only_new_file (Fixture.processor "")
              Fixture.ca_key (Fixture.world Fixture.key_only 7)
              (fst (get_ca_cert (Fixture.processor "") Fixture.ca_key
                      (Fixture.world Fixture.key_only 7)))
              (snd (get_ca_cert (Fixture.processor "") Fixture.ca_key
                      (Fixture.world Fixture.key_only 7)))
              "/srv/mtls/ca.crt")
    as (c & _ & Hf & _).
  - apply surjective_pairing.
  - intros H. vm_compute in H. discriminate.
  - exact Hf.
Defined.

(** ** Issuing and the file store *)

(** X7: whatever [generate_cert] returns or raises, every file other than
    the configured key file and the configured certificate file is as it
    was. *)
Theorem generate_cert_other_files self csr lifetime w key_path cert_path p :
  config_path (config self) (file_dir self) "ca_key" w = (Return key_path, w) →
  config_path (config self) (file_dir self) "ca_cert" w = (Return cert_path, w) →
  p ≠ key_path →
  p ≠ cert_path →
  fs (snd (generate_cert self csr lifetime w)) !! p = fs w !! p.
Proof.
  intros Hkp Hcp Hk Hc. rewrite generate_cert_fs.
  destruct (get_ca_key self w) as [o w1] eqn:Hkey.
  assert (Hf1 : fs w1 !! p = fs w !! p).
  { apply (get_ca_key_frame self w o w1 p Hkey).
    intros kp Hkp'. congruence. }
  destruct o as [k|e]; [|exact Hf1].
  destruct (get_ca_cert self k w1) as [o2 w2] eqn:Hcert. simpl.
  rewrite <- Hf1. apply (get_ca_cert_frame self k w1 o2 w2 p Hcert).
  intros cp Hcp'.
  pose proof (config_path_cwd _ _ _ w w1 _
                (get_ca_key_cwd self w _ _ Hkey) Hcp) as Hcp1.
  congruence.
Qed.

Lemma generate_cert_other_files_witness :
  fs (snd (generate_cert (Fixture.processor "") Fixture.csr 24
             (Fixture.world Fixture.corrupt 7))) !! "/etc/passwd"
  = fs (Fixture.world Fixture.corrupt 7) !! "/etc/passwd".
Proof.
  apply (generate_cert_other_files (Fixture.processor "") Fixture.csr 24
           (Fixture.world Fixture.corrupt 7)
           "/srv/mtls/ca.key" "/srv/mtls/ca.crt" "/etc/passwd");
    [reflexivity | reflexivity | discriminate | discriminate].
Defined.

(** X8: after one certificate has been issued by a processor that stores
    keys unencrypted, a second call finds the CA key and certificate on
    disk: it writes nothing, and for a lifetime that is not negative, a
    clock past the builder's earliest date and an expiry that [datetime]
    can hold it issues a certificate with the same issuer, signed by the
    same key, as the first. *)
Theorem generate_cert_twice self csr1 lifetime1 w pem1 w' csr2 lifetime2 :
  no_encyption self = NoEncryption →
  generate_cert self csr1 lifetime1 w = (Return pem1, w') →
  fs (snd (generate_cert self csr2 lifetime2 w')) = fs w'
  ∧ (0 ≤ lifetime2 →
     Builder.EARLIEST_UTC_TIME ≤ clock w' (ticks w') →
     clock w' (ticks w') + timedelta_hours lifetime2 ≤ MAXDATETIME →
     ∃ cert1 cert2,
       pem1 = public_bytes cert1 PEM
       ∧ generate_cert self csr2 lifetime2 w'
         = (Return (public_bytes cert2 PEM), after_issue w')
       ∧ issuer cert2 = issuer cert1
       ∧ signature_key cert2 = signature_key cert1
       ∧ subject cert2 = csr_subject csr2
       ∧ cert_public_key cert2 = csr_public_key csr2).
Proof.
  intros Hn H.
  destruct (generate_cert_inv_full _ _ _ _ _ _ H)
    as (k & w1 & cac & w2 & an & Hk & Hc & Ha & Hascii & _ & _ & _ & Hpem & ->).
  destruct (get_ca_key_stored self w k w1 Hn Hk)
    as (kp & fmt & kwr & Hkp & Hkold & Hkf & Hcwd1).
  destruct (get_ca_cert_stored self k w1 cac w2 Hc)
    as (cp & cwr & Hcp & Hcf & Hsame & Hother & Hcwd2).
  assert (Hkf2 : fs w2 !! kp
                 = Some (RegularFile (KeyBytes k PEM fmt NoEncryption) true kwr)).
  { destruct Hsame as [->|Habs]; [exact Hkf|].
    rewrite Hother; [exact Hkf|]. intros ->. rewrite Hkf in Habs. discriminate. }
  assert (Hk' : get_ca_key self (after_issue w2) = (Return k, after_issue w2)).
  { apply (get_ca_key_loads self (after_issue w2) kp) with (fmt := fmt)
                                                          (writable := kwr);
      [|exact Hkf2].
    apply (config_path_cwd _ _ _ w); [simpl; congruence | exact Hkp]. }
  assert (Hc' : get_ca_cert self k (after_issue w2)
                = (Return cac, after_issue w2)).
  { rewrite (get_ca_cert_isfile self k (after_issue w2) cp (CertBytes cac PEM)
               true cwr); [reflexivity| |exact Hcf].
    apply (config_path_cwd _ _ _ w1); [simpl; congruence | exact Hcp]. }
  split.
  - rewrite generate_cert_fs, Hk', Hc'. reflexivity.
  - intros Hl He Hmax.
    rewrite (generate_cert_after_ca self csr2 lifetime2 (after_issue w2) k
               (after_issue w2) cac (after_issue w2) an Hk' Hc' Ha Hascii)
      by (unfold Builder.EARLIEST_UTC_TIME, MINDATETIME, MAXDATETIME,
            timedelta_hours in *; lia).
    replace (clock (after_issue w2) (ticks (after_issue w2))
             <? Builder.EARLIEST_UTC_TIME) with false
      by (symmetry; apply Z.ltb_ge; exact He).
    replace (lifetime2 <? 0) with false by (symmetry; apply Z.ltb_ge; exact Hl).
    eexists _, _. split; [exact Hpem|]. split; [reflexivity|]. repeat split.
Qed.

Lemma generate_cert_twice_witness :
  fs (snd (generate_cert (Fixture.processor "host1.example") Fixture.csr 48
             (after_issue (Fixture.world Fixture.ready 7))))
  = fs (after_issue (Fixture.world Fixture.ready 7)).
Proof.
  refine (proj1 (generate_cert_twice (Fixture.processor "host1.example")
                   Fixture.csr 24 (Fixture.world Fixture.ready 7)
                   (public_bytes
                      (leaf_certificate Fixture.csr Fixture.ca_cert
                         Fixture.ca_key 1540000000000000 24 7 "host1.example")
                      PEM)
                   (after_issue (Fixture.world Fixture.ready 7))
                   Fixture.csr 48 _ _)).
  - reflexivity.
  - reflexivity.
Defined.

(** X9: when no certificate file exists and [generate_cert] returns, the
    certificate file it leaves holds a self-signed CA certificate, and the
    issued certificate chains to it: its issuer is the subject of that CA
    certificate and the key that signed it is the public key the CA
    certificate carries. *)
Theorem generate_cert_bootstrap_chain self csr lifetime w cert_path pem w' :
  config_path (config self) (file_dir self) "ca_cert" w = (Return cert_path, w) →
  fs w !! cert_path = None →
  generate_cert self csr lifetime w = (Return pem, w') →
  ∃ leaf ca,
    pem = public_bytes leaf PEM
    ∧ fs w' !! cert_path = Some (RegularFile (public_bytes ca PEM) true true)
    ∧ issuer leaf = subject ca
    ∧ signature_key leaf = cert_public_key ca
    ∧ issuer ca = subject ca
    ∧ signature_key ca = cert_public_key ca.
Proof.
  intros Hcp Hnone H.
  destruct (generate_cert_inv _ _ _ _ _ _ H)
    as (k & w1 & cac & w2 & an & Hk & Hc & Ha & _ & _ & Hpem & ->).
  assert (Hnone1 : fs w1 !! cert_path = None).
  { destruct (get_ca_key_cases self w _ _ Hk)
      as [(path & k' & fmt & wr & Hp & Hf & Ho & ->)
         |[(path & content & Hp & Hf & Hl & Ho & ->)|(e & Ho & _)]];
      [exact Hnone | | discriminate].
    destruct (decide (path = cert_path)) as [->|Hd]; [congruence|].
    simpl. rewrite lookup_insert_ne by exact Hd. exact Hnone. }
  pose proof (config_path_cwd _ _ _ w w1 _ (get_ca_key_cwd self w _ _ Hk) Hcp)
    as Hcp1.
  destruct (get_ca_cert_cases self k w1 _ _ Hc)
    as [(path & c' & wr & Hp & Hf & Ho & ->)
       |[(path & cn & Hp & Hf & Hi & Ho & ->)|(e & Ho & _)]];
    [congruence | | discriminate].
  assert (path = cert_path) as -> by congruence.
  injection Ho as ->.
  eexists _, _. split; [exact Hpem|].
  split; [simpl; apply lookup_insert_eq|]. repeat split.
Qed.

Lemma generate_cert_bootstrap_chain_witness :
  ∃ leaf ca,
    fs (snd (generate_cert (Fixture.processor "") Fixture.csr 24
               (Fixture.world Fixture.key_only 7))) !! "/srv/mtls/ca.crt"
    = Some (RegularFile (public_bytes ca PEM) true true)
    ∧ issuer leaf = subject ca
    ∧ signature_key leaf = cert_public_key ca.
Proof.
  destruct (generate_cert_bootstrap_chain (Fixture.processor "") Fixture.csr 24
              (Fixture.world Fixture.key_only 7) "/srv/mtls/ca.crt"
              (public_bytes
                 (leaf_certificate Fixture.csr
                    (ca_certificate Fixture.ca_key "test-ca"
                       1540000000000000 3)
                    Fixture.ca_key 1540000001000000 24 8 "") PEM)
              (snd (generate_cert (Fixture.processor "") Fixture.csr 24
                      (Fixture.world Fixture.key_only 7))))
    as (leaf & ca & _ & Hf & Hi & Hs & _).
  - reflexivity.
  - reflexivity.
  - rewrite (surjective_pairing
               (generate_cert (Fixture.processor "") Fixture.csr 24
                  (Fixture.world Fixture.key_only 7))).
    f_equal.
  - exists leaf, ca. split; [exact Hf|]. split; [exact Hi | exact Hs].
Defined.

Lemma get_ca_key_keeps_absent self w o w1 p :
  get_ca_key self w = (o, w1) → fs w !! p = None → fs w1 !! p = None.
Proof.
  intros H Hnone.
  destruct (get_ca_key_cases self w _ _ H)
    as [(path & k' & fmt & wr & Hp & Hf & Ho & ->)
       |[(path & content & Hp & Hf & Hl & Ho & ->)|(e & Ho & Hfs & _)]].
  - exact Hnone.
  - destruct (decide (path = p)) as [->|Hd]; [congruence|].
    simpl. rewrite lookup_insert_ne by exact Hd. exact Hnone.
  - rewrite Hfs. exact Hnone.
Qed.

(** X10: nothing is rolled back when issuing fails.  When no certificate
    file exists, the CA key loads and the CA certificate is built, a
    negative lifetime makes [generate_cert] raise, and the certificate
    file it has just created stays, holding the new CA certificate. *)
Theorem generate_cert_failure_keeps_bootstrap
    self csr lifetime w cert_path ca_pkey w1 ca_cert w2 :
  config_path (config self) (file_dir self) "ca_cert" w = (Return cert_path, w) →
  fs w !! cert_path = None →
  get_ca_key self w = (Return ca_pkey, w1) →
  get_ca_cert self ca_pkey w1 = (Return ca_cert, w2) →
  lifetime < 0 →
  (∃ e, fst (generate_cert self csr lifetime w) = Raise e)
  ∧ fs (snd (generate_cert self csr lifetime w)) !! cert_path
    = Some (RegularFile (public_bytes ca_cert PEM) true true).
Proof.
  intros Hcp Hnone Hk Hc Hneg. split.
  - destruct (generate_cert self csr lifetime w) as [[pem|e] w'] eqn:E;
      [|simpl; eauto].
    destruct (generate_cert_inv _ _ _ _ _ _ E)
      as (_ & _ & _ & _ & _ & _ & _ & _ & _ & Hh & _). lia.
  - rewrite generate_cert_fs, Hk, Hc. simpl.
    pose proof (get_ca_key_keeps_absent self w _ w1 cert_path Hk Hnone)
      as Hnone1.
    pose proof (config_path_cwd _ _ _ w w1 _ (get_ca_key_cwd self w _ _ Hk) Hcp)
      as Hcp1.
    destruct (get_ca_cert_cases self ca_pkey w1 _ _ Hc)
      as [(path & c' & wr & Hp & Hf & Ho & ->)
         |[(path & cn & Hp & Hf & Hi & Ho & ->)|(e & Ho & _)]];
      [congruence | | discriminate].
    assert (path = cert_path) as -> by congruence.
    injection Ho as ->. simpl. apply lookup_insert_eq.
Qed.

Lemma generate_cert_failure_keeps_bootstrap_witness :
  (∃ e, fst (generate_cert (Fixture.processor "") Fixture.csr (-3)
               (Fixture.world Fixture.key_only 7)) = Raise e)
  ∧ fs (snd (generate_cert (Fixture.processor "") Fixture.csr (-3)
               (Fixture.world Fixture.key_only 7))) !! "/srv/mtls/ca.crt"
    = Some (RegularFile
              (public_bytes
                 (ca_certificate Fixture.ca_key "test-ca" 1540000000000000 3)
                 PEM) true true).
Proof.
  apply (generate_cert_failure_keeps_bootstrap (Fixture.processor "")
           Fixture.csr (-3) (Fixture.world Fixture.key_only 7)
           "/srv/mtls/ca.crt" Fixture.ca_key
           (Fixture.world Fixture.key_only 7)
           (ca_certificate Fixture.ca_key "test-ca" 1540000000000000 3)
           (set_fs (<["/srv/mtls/ca.crt" :=
                        RegularFile
                          (public_bytes
                             (ca_certificate Fixture.ca_key "test-ca"
                                1540000000000000 3) PEM)
                          true true]> Fixture.key_only)
              (after_issue (Fixture.world Fixture.key_only 7)))).
  - reflexivity.
  - reflexivity.
  - reflexivity.
  - reflexivity.
  - lia.
Defined.

(** X11: with the option [alternate_name] missing from the configuration
    no certificate is ever issued.  Once the CA material has been loaded
    or created and the clock read, [generate_cert] raises before a serial
    number is drawn: the configuration's exception when [now] plus the
    lifetime is a date [datetime] can hold, and [OverflowError], raised by
    the addition that comes first, when it is not. *)
Theorem generate_cert_needs_alternate_name self csr lifetime w e :
  get (config self) "mtls" "alternate_name" = Raise e →
  (∀ pem w', generate_cert self csr lifetime w ≠ (Return pem, w'))
  ∧ (∀ ca_pkey w1 ca_cert w2,
       get_ca_key self w = (Return ca_pkey, w1) →
       get_ca_cert self ca_pkey w1 = (Return ca_cert, w2) →
       MINDATETIME ≤ clock w2 (ticks w2) ≤ MAXDATETIME →
       (MINDATETIME ≤ clock w2 (ticks w2) + timedelta_hours lifetime
        ≤ MAXDATETIME →
        generate_cert self csr lifetime w
        = (Raise e, set_ticks (S (ticks w2)) w2))
       ∧ (¬ (MINDATETIME ≤ clock w2 (ticks w2) + timedelta_hours lifetime
             ≤ MAXDATETIME) →
          generate_cert self csr lifetime w
          = (Raise OverflowError, set_ticks (S (ticks w2)) w2))).
Proof.
  intros Ha. split.
  - intros pem w' H.
    destruct (generate_cert_inv _ _ _ _ _ _ H)
      as (k & w1 & cac & w2 & an & _ & _ & Ha' & _).
    congruence.
  - intros k w1 cac w2 Hk Hc Hnow.
    rewrite (generate_cert_stages self csr lifetime w k w1 cac w2 Hk Hc).
    split.
    + intros Hend. rewrite (add_timedelta_in_range _ _ Hnow Hend), Ha.
      reflexivity.
    + intros Hout. rewrite (add_timedelta_out_of_range _ _ Hout). reflexivity.
Qed.

Lemma generate_cert_needs_alternate_name_witness :
  generate_cert
    {| gpg := Fixture.keyring;
       config := <["mtls" := <["ca_key" := "/srv/mtls/ca.key"]>
                             (<["ca_cert" := "/srv/mtls/ca.crt"]> ∅)]> ∅;
       file_dir := "/srv/mtls";
       openssl_format := TraditionalOpenSSL;
       no_encyption := NoEncryption |}
    Fixture.csr 24 (Fixture.world Fixture.ready 7)
  = (Raise NoOptionError, set_ticks 1 (Fixture.world Fixture.ready 7)).
Proof.
  refine (proj1 (proj2 (generate_cert_needs_alternate_name _ Fixture.csr 24
                   (Fixture.world Fixture.ready 7) NoOptionError _)
            Fixture.ca_key (Fixture.world Fixture.ready 7)
            Fixture.ca_cert (Fixture.world Fixture.ready 7) _ _ _) _).
  - reflexivity.
  - reflexivity.
  - reflexivity.
  - split; vm_compute; discriminate.
  - split; vm_compute; discriminate.
Defined.

(** ** The names of the Subject-Alternative-Name extension *)

Lemma join_split sep s :
  PyStr.join (String sep "") (PyStr.split sep s) = s.
Proof.
  induction s as [|c rest IH]; [reflexivity|]. simpl.
  destruct (Ascii.eqb c sep) eqn:E.
  - apply Ascii.eqb_eq in E as ->.
    pose proof (split_nonempty sep rest) as Hne.
    destruct (PyStr.split sep rest) as [|piece pieces]; [congruence|].
    change (PyStr.join (String sep "") ("" :: piece :: pieces))
      with (String sep (PyStr.join (String sep "") (piece :: pieces))).
    rewrite IH. reflexivity.
  - pose proof (split_nonempty sep rest) as Hne.
    destruct (PyStr.split sep rest) as [|piece pieces]; [congruence|].
    destruct pieces as [|next more].
    + simpl in *. rewrite IH. reflexivity.
    + change (PyStr.join (String sep "") (String c piece :: next :: more))
        with (String c (PyStr.join (String sep "") (piece :: next :: more))).
      rewrite IH. reflexivity.
Qed.

Lemma split_pieces_no_sep sep s :
  Forall (λ piece, ∀ i, String.get i piece ≠ Some sep) (PyStr.split sep s).
Proof.
  induction s as [|c rest IH]; simpl.
  - constructor; [|constructor]. intros i. destruct i; discriminate.
  - destruct (Ascii.eqb c sep) eqn:E.
    + constructor; [|exact IH]. intros i. destruct i; discriminate.
    + destruct (PyStr.split sep rest) as [|piece pieces].
      * constructor; [|constructor]. intros [|i]; simpl.
        -- intros [= ->]. rewrite Ascii.eqb_refl in E. discriminate.
        -- destruct i; discriminate.
      * inversion IH as [|? ? Hp Hps]; subst. constructor; [|exact Hps].
        intros [|i]; simpl.
        -- intros [= ->]. rewrite Ascii.eqb_refl in E. discriminate.
        -- apply Hp.
Qed.

(** X12: the Subject-Alternative-Name extension of an issued certificate
    lists the configured string cut at every comma and nothing else:
    there is at least one name, no name contains a comma, and the names
    joined by commas give back the configured string, so nothing is
    trimmed, dropped or reordered. *)
Theorem generate_cert_san_names self csr lifetime w pem w' :
  generate_cert self csr lifetime w = (Return pem, w') →
  ∃ cert names,
    pem = public_bytes cert PEM
    ∧ extensions cert
      = [{| ext_value := SubjectAlternativeName (map DNSName names);
            critical := false |}]
    ∧ names ≠ []
    ∧ get (config self) "mtls" "alternate_name"
      = Return (PyStr.join "," names)
    ∧ Forall (λ name, ∀ i, String.get i name ≠ Some ","%char) names.
Proof.
  intros H.
  destruct (generate_cert_san _ _ _ _ _ _ H) as (cert & an & Hpem & Ha & Hx).
  exists cert, (PyStr.split ","%char an).
  split; [exact Hpem|]. split; [exact Hx|].
  split; [apply split_nonempty|].
  split; [rewrite join_split; exact Ha | apply split_pieces_no_sep].
Qed.

Lemma generate_cert_san_names_witness :
  ∃ cert names,
    extensions cert
    = [{| ext_value := SubjectAlternativeName (map DNSName names);
          critical := false |}]
    ∧ get (config (Fixture.processor "a.example, b.example,"))
        "mtls" "alternate_name"
      = Return (PyStr.join "," names).
Proof.
  destruct (generate_cert_san_names
              (Fixture.processor "a.example, b.example,") Fixture.csr 24
              (Fixture.world Fixture.ready 7)
              (public_bytes
                 (leaf_certificate Fixture.csr Fixture.ca_cert Fixture.ca_key
                    1540000000000000 24 7 "a.example, b.example,") PEM)
              (after_issue (Fixture.world Fixture.ready 7)) eq_refl)
    as (cert & names & _ & Hx & _ & Ha & _).
  exists cert, names. split; [exact Hx | exact Ha].
Defined.

Example san_keeps_spaces_and_empty_names :
  PyStr.split ","%char "a.example, b.example,"
  = ["a.example"; " b.example"; ""].
Proof. reflexivity. Qed.

(** ** Decrypting and parsing *)

(** X13: [decrypt] returns only when the keyring answers, and then the
    fingerprint is the one of the answer; the answer itself is returned
    exactly when its [ok] flag is set, the world being left as it was, and
    otherwise [None] is returned and the status is logged.  A result whose
    [ok] flag is clear is never handed to the caller. *)
Theorem decrypt_returns_plaintext_only_when_ok self payload w r fp w' :
  decrypt self payload w = (Return (r, fp), w') →
  ∃ d,
    gpg_decrypt (gpg self) payload = Answers d
    ∧ fp = fingerprint d
    ∧ ((ok d = true ∧ r = Some d ∧ w' = w)
       ∨ (ok d = false ∧ r = None
          ∧ w' = set_log (log w ++ [LogText (status d)]) w)).
Proof.
  unfold decrypt. py_unfold.
  destruct (gpg_decrypt (gpg self) payload) as [d|detail]; simpl.
  - intros H. exists d. split; [reflexivity|].
    destruct (ok d) eqn:Hok; simpl in H; injection H as <- <- <-; auto.
  - discriminate.
Qed.

Lemma decrypt_returns_plaintext_only_when_ok_witness :
  ∃ d,
    gpg_decrypt (gpg (Fixture.processor "")) "foreign" = Answers d
    ∧ ok d = false.
Proof.
  destruct (decrypt_returns_plaintext_only_when_ok (Fixture.processor "")
              "foreign" (Fixture.world ∅ 0) None None
              (set_log [LogText "decryption failed"] (Fixture.world ∅ 0))
              eq_refl)
    as (d & Hd & _ & [(Hok & Hr & _)|(Hok & _)]).
  - discriminate.
  - exists d. split; [exact Hd | exact Hok].
Defined.

(** X14: [get_csr] never raises and never touches the file store: a PEM
    request is returned parsed with the world as it was, and for any
    other input [None] is returned and the parse error is logged. *)
Theorem get_csr_never_raises self csr w :
  ∃ r w',
    get_csr self csr w = (Return r, w')
    ∧ fs w' = fs w
    ∧ (∀ request, r = Some request ↔ csr = CsrBytes request PEM)
    ∧ (r = None ↔ w' = set_log (log w ++ [LogExn ValueError]) w)
    ∧ (r ≠ None → w' = w).
Proof.
  unfold get_csr. py_unfold.
  assert (Hlog : set_log (log w ++ [LogExn ValueError]) w ≠ w).
  { intros E. apply (f_equal log) in E. simpl in E.
    apply (f_equal length) in E. rewrite length_app in E. simpl in E. lia. }
  destruct csr as [k enc fmt alg | c enc | request [] | raw]; simpl;
    eexists _, _; (split; [reflexivity|]); (split; [reflexivity|]);
    split; try (intros request'; split; [discriminate | discriminate]);
    try (split; [split; [reflexivity | reflexivity] | congruence]).
  - intros request'. split; [intros [= ->]; reflexivity | intros [= ->]; reflexivity].
  - split; [split; [discriminate | intros E; symmetry in E; contradiction]
           | reflexivity].
Qed.

(** ** The CA key and the CA certificate are not compared *)

(** X15: with a key file and a certificate file in place, [generate_cert]
    signs with the stored key and names the stored certificate's subject
    as issuer without comparing the two: for ASCII alternate names, a
    lifetime that is not negative, a clock past the builder's earliest
    date and an expiry that [datetime] can hold, a certificate is issued,
    and when the stored certificate carries another public key it does
    not verify under the CA certificate it names. *)
Theorem generate_cert_trusts_ca_files self csr lifetime w
    key_path cert_path k fmt key_writable c cert_writable alternate_name :
  config_path (config self) (file_dir self) "ca_key" w = (Return key_path, w) →
  config_path (config self) (file_dir self) "ca_cert" w = (Return cert_path, w) →
  fs w !! key_path
  = Some (RegularFile (KeyBytes k PEM fmt NoEncryption) true key_writable) →
  fs w !! cert_path = Some (RegularFile (CertBytes c PEM) true cert_writable) →
  get (config self) "mtls" "alternate_name" = Return alternate_name →
  forallb all_ascii (PyStr.split ","%char alternate_name) = true →
  Builder.EARLIEST_UTC_TIME ≤ clock w (ticks w) →
  0 ≤ lifetime →
  clock w (ticks w) + timedelta_hours lifetime ≤ MAXDATETIME →
  ∃ leaf,
    generate_cert self csr lifetime w
    = (Return (public_bytes leaf PEM), after_issue w)
    ∧ issuer leaf = subject c
    ∧ signature_key leaf = public_key k
    ∧ (cert_public_key c ≠ public_key k
       → signature_key leaf ≠ cert_public_key c).
Proof.
  intros Hkp Hcp Hkf Hcf Ha Hascii He Hl Hmax.
  pose proof (get_ca_key_loads self w key_path Hkp k fmt key_writable Hkf) as Hk.
  pose proof (get_ca_cert_isfile self k w cert_path (CertBytes c PEM) true
                cert_writable Hcp Hcf) as Hc.
  simpl in Hc.
  rewrite (generate_cert_after_ca self csr lifetime w k w c w alternate_name
             Hk Hc Ha Hascii)
    by (unfold Builder.EARLIEST_UTC_TIME, MINDATETIME, MAXDATETIME,
          timedelta_hours in *; lia).
  replace (clock w (ticks w) <? Builder.EARLIEST_UTC_TIME) with false
    by (symmetry; apply Z.ltb_ge; exact He).
  replace (lifetime <? 0) with false by (symmetry; apply Z.ltb_ge; exact Hl).
  eexists. split; [reflexivity|]. split; [reflexivity|].
  split; [reflexivity|]. simpl. congruence.
Qed.

Lemma generate_cert_trusts_ca_files_witness :
  ∃ leaf,
    generate_cert (Fixture.processor "host1.example") Fixture.csr 24
      (Fixture.world
         (<["/srv/mtls/ca.key" :=
              RegularFile
                (KeyBytes {| key_size := 4096; public_exponent := 65537;
                             secret := 555 |}
                          PEM TraditionalOpenSSL NoEncryption) true true]>
            (<["/srv/mtls/ca.crt" := Fixture.cert_file]> ∅)) 7)
    = (Return (public_bytes leaf PEM),
       after_issue
         (Fixture.world
            (<["/srv/mtls/ca.key" :=
                 RegularFile
                   (KeyBytes {| key_size := 4096; public_exponent := 65537;
                                secret := 555 |}
                             PEM TraditionalOpenSSL NoEncryption) true true]>
               (<["/srv/mtls/ca.crt" := Fixture.cert_file]> ∅)) 7))
    ∧ signature_key leaf ≠ cert_public_key Fixture.ca_cert.
Proof.
  destruct (generate_cert_trusts_ca_files (Fixture.processor "host1.example")
              Fixture.csr 24
              (Fixture.world
                 (<["/srv/mtls/ca.key" :=
                      RegularFile
                        (KeyBytes {| key_size := 4096;
                                     public_exponent := 65537;
                                     secret := 555 |}
                                  PEM TraditionalOpenSSL NoEncryption)
                        true true]>
                    (<["/srv/mtls/ca.crt" := Fixture.cert_file]> ∅)) 7)
              "/srv/mtls/ca.key" "/srv/mtls/ca.crt"
              {| key_size := 4096; public_exponent := 65537; secret := 555 |}
              TraditionalOpenSSL true Fixture.ca_cert true "host1.example")
    as (leaf & H & _ & _ & Hne).
  - reflexivity.
  - reflexivity.
  - reflexivity.
  - reflexivity.
  - reflexivity.
  - reflexivity.
  - vm_compute. discriminate.
  - lia.
  - vm_compute. discriminate.
  - exists leaf. split; [exact H|]. apply Hne. vm_compute. discriminate.
Defined.
